(** * Members-only message board: the request handlers of
      [src/controllers/index.js], embedded and verified.

    The handlers are Express middleware stacks.  Each one is embedded as a
    function from the request and the document store to the replies it
    issues (in order) and the store it leaves behind.  The libraries the
    controllers lean on (validator.js through express-validator, bcryptjs,
    Mongoose, Passport) are modelled just far enough for the handlers to run:
    their models are kept in modules of their own, apart from the code
    translated from the controllers. *)

From Stdlib Require Import NArith Ascii String.
From stdpp Require Import gmap strings list fin_maps.

Local Open Scope string_scope.
Local Open Scope list_scope.

(** ** Strings

    A JavaScript string is taken as a sequence of code units below 256, one
    [ascii] each.  The form fields the handlers read are such strings. *)

Module Validator.

(** The code units [\s] matches below 256: tab, line feed, vertical tab,
    form feed, carriage return, space and the no-break space. *)
Definition is_space (c : ascii) : bool :=
  let n := N_of_ascii c in
  ((9 <=? n) && (n <=? 13) || (n =? 32) || (n =? 160))%N.

Definition is_upper (c : ascii) : bool :=
  let n := N_of_ascii c in ((65 <=? n) && (n <=? 90))%N.

Definition is_lower (c : ascii) : bool :=
  let n := N_of_ascii c in ((97 <=? n) && (n <=? 122))%N.

Definition is_digit (c : ascii) : bool :=
  let n := N_of_ascii c in ((48 <=? n) && (n <=? 57))%N.

Definition is_letter (c : ascii) : bool := is_upper c || is_lower c.

Fixpoint all_chars (p : ascii -> bool) (s : string) : bool :=
  match s with
  | EmptyString => true
  | String c r => p c && all_chars p r
  end.

Definition is_empty (s : string) : bool :=
  match s with EmptyString => true | String _ _ => false end.

(** [ltrim]: [str.replace(/^\s+/g, '')]. *)
Fixpoint ltrim (s : string) : string :=
  match s with
  | EmptyString => EmptyString
  | String c r => if is_space c then ltrim r else s
  end.

(** [rtrim]: the longest prefix that does not end in white space. *)
Fixpoint rtrim (s : string) : string :=
  match s with
  | EmptyString => EmptyString
  | String c r =>
      let r' := rtrim r in
      if is_space c && is_empty r' then EmptyString else String c r'
  end.

(** [trim(str)] is [rtrim(ltrim(str))]. *)
Definition trim (s : string) : string := rtrim (ltrim s).

(** [isAlpha], default locale: [/^[A-Z]+$/i]. *)
Definition isAlpha (s : string) : bool :=
  negb (is_empty s) && all_chars is_letter s.

(** [isAlphanumeric], default locale: [/^[0-9A-Z]+$/i]. *)
Definition isAlphanumeric (s : string) : bool :=
  negb (is_empty s) && all_chars (fun c => is_digit c || is_letter c) s.

(** [isLength(str, { min })]: no upper bound is given by the controllers. *)
Definition isLength (min : nat) (s : string) : bool :=
  Nat.leb min (String.length s).

Definition escape_char (c : ascii) : string :=
  let n := N_of_ascii c in
  if (n =? 38)%N then "&amp;"
  else if (n =? 34)%N then "&quot;"
  else if (n =? 39)%N then "&#x27;"
  else if (n =? 60)%N then "&lt;"
  else if (n =? 62)%N then "&gt;"
  else if (n =? 47)%N then "&#x2F;"
  else if (n =? 92)%N then "&#x5C;"
  else if (n =? 96)%N then "&#96;"
  else String c EmptyString.

(** [escape]: the HTML-significant characters become entities. *)
Fixpoint escape (s : string) : string :=
  match s with
  | EmptyString => EmptyString
  | String c r => escape_char c +:+ escape r
  end.

End Validator.

(** ** Documents and the document store *)

(** An ObjectId, kept abstract as a number.  The requests below carry ids
    that are already ObjectIds: the cast from their text is Mongoose's. *)
Definition ObjectId := N.

(** Modelled from the spec: the schema of [models/user.js] is not among the
    sources.  A user has a unique alphanumeric username, a first and a last
    name, a password hash and a boolean membership status. *)
Module User.
Record doc := mk {
  _id : ObjectId;
  first_name : string;
  last_name : string;
  username : string;
  password : string;
  membership_status : bool
}.

(** [user.membership_status = v]. *)
Definition set_membership_status (v : bool) (u : doc) : doc :=
  mk (_id u) (first_name u) (last_name u) (username u) (password u) v.

#[global] Instance doc_eq_dec : EqDecision doc.
Proof. solve_decision. Defined.
End User.

(** Modelled from the spec: the schema of [models/message.js] is not among
    the sources.  A message has an author reference, a title and a text. *)
Module Message.
Record doc := mk {
  _id : ObjectId;
  user : ObjectId;
  title : string;
  text : string
}.

#[global] Instance doc_eq_dec : EqDecision doc.
Proof. solve_decision. Defined.
End Message.

(** A JavaScript [Error]: its name, its message and the [status] the
    handlers set on the errors they make themselves. *)
Record Error := mkError {
  err_name : string;
  err_message : string;
  err_status : option nat
}.

(** The calls the handlers make on the two Mongoose models. *)
Inductive StoreOp :=
| Op_User_findOne (username : string)
| Op_User_findById (id : option ObjectId)
| Op_User_save (id : ObjectId)
| Op_Message_find
| Op_Message_findById (id : ObjectId)
| Op_Message_save (id : ObjectId)
| Op_Message_findByIdAndRemove (id : ObjectId).

(** The store: the two collections in their natural order, the failures in
    stock for the coming calls (an infrastructure error or a document the
    schema turns down; [None]: the call goes through), and the calls made so
    far. *)
Record Db := mkDb {
  users : list User.doc;
  messages : list Message.doc;
  faults : list (option Error);
  log : list StoreOp
}.

(** An id no document of the collection has: [new Model(...)] draws one. *)
Definition new_ObjectId (ids : list ObjectId) : ObjectId :=
  N.succ (foldr N.max 0%N ids).

Module Store.

(** The outcome of a call: [inl err] is the [err] handed to the callback
    (or the rejection of the awaited promise). *)
Definition result (A : Type) : Type := (Error + A) * Db.

(** The store once a call has been taken in: the call is logged and the
    next entry of the fault schedule is used up. *)
Definition logged (op : StoreOp) (db : Db) : Db :=
  mkDb (users db) (messages db) (tail (faults db)) (log db ++ [op]).

(** No failure is in stock for the next [n] calls. *)
Definition calm (n : nat) (db : Db) : Prop :=
  Forall (eq None) (take n (faults db)).

(** A scheduled failure leaves the collections alone. *)
Definition call {A : Type} (op : StoreOp) (run : Db -> A * Db) (db : Db)
  : result A :=
  let db1 := logged op db in
  match head (faults db) with
  | Some (Some e) => (inl e, db1)
  | _ => let '(a, db2) := run db1 in (inr a, db2)
  end.

Definition set_users (us : list User.doc) (db : Db) : Db :=
  mkDb us (messages db) (faults db) (log db).

Definition set_messages (ms : list Message.doc) (db : Db) : Db :=
  mkDb (users db) ms (faults db) (log db).

(** The first document the predicate holds of is replaced. *)
Fixpoint replace_first {A : Type} (p : A -> bool) (x : A) (l : list A)
  : list A :=
  match l with
  | [] => []
  | y :: r => if p y then x :: r else y :: replace_first p x r
  end.

(** The first document the predicate holds of is dropped. *)
Fixpoint remove_first {A : Type} (p : A -> bool) (l : list A) : list A :=
  match l with
  | [] => []
  | y :: r => if p y then r else y :: remove_first p r
  end.

Definition has_user_id (id : ObjectId) (u : User.doc) : bool :=
  (User._id u =? id)%N.

Definition has_message_id (id : ObjectId) (m : Message.doc) : bool :=
  (Message._id m =? id)%N.

Definition has_username (name : string) (u : User.doc) : bool :=
  String.eqb (User.username u) name.

(** [User.findOne({ username }).exec()]. *)
Definition User_findOne (name : string) : Db -> result (option User.doc) :=
  call (Op_User_findOne name)
       (fun db => (List.find (has_username name) (users db), db)).

(** [User.findById(x, cb)].  Mongoose casts a document handed in as [x] to
    its [_id] and an undefined [x] to [null], which no document has. *)
Definition User_findById (id : option ObjectId)
  : Db -> result (option User.doc) :=
  call (Op_User_findById id)
       (fun db => (match id with
                   | Some i => List.find (has_user_id i) (users db)
                   | None => None
                   end, db)).

(** [user.save()]: a document the collection holds is updated in place,
    a new one is appended. *)
Definition User_save (u : User.doc) : Db -> result unit :=
  call (Op_User_save (User._id u))
       (fun db =>
          let p := has_user_id (User._id u) in
          (tt, set_users (if existsb p (users db)
                          then replace_first p u (users db)
                          else users db ++ [u]) db)).

(** [message.save(cb)] *)
Definition Message_save (m : Message.doc) : Db -> result unit :=
  call (Op_Message_save (Message._id m))
       (fun db =>
          let p := has_message_id (Message._id m) in
          (tt, set_messages (if existsb p (messages db)
                             then replace_first p m (messages db)
                             else messages db ++ [m]) db)).

(** [.populate('user')]: the author reference is resolved; a dangling
    reference resolves to nothing. *)
Definition populate (db : Db) (m : Message.doc)
  : Message.doc * option User.doc :=
  (m, List.find (has_user_id (Message.user m)) (users db)).

(** [Message.find().populate('user').exec(cb)] *)
Definition Message_find
  : Db -> result (list (Message.doc * option User.doc)) :=
  call Op_Message_find (fun db => (map (populate db) (messages db), db)).

(** [Message.findById(id).populate('user').exec(cb)] *)
Definition Message_findById (id : ObjectId)
  : Db -> result (option (Message.doc * option User.doc)) :=
  call (Op_Message_findById id)
       (fun db => (populate db <$> List.find (has_message_id id) (messages db), db)).

(** [Message.findByIdAndRemove(id, cb)]: when no message has the id the
    callback still gets no error. *)
Definition Message_findByIdAndRemove (id : ObjectId)
  : Db -> result (option Message.doc) :=
  call (Op_Message_findByIdAndRemove id)
       (fun db => (List.find (has_message_id id) (messages db),
                   set_messages (remove_first (has_message_id id) (messages db)) db)).

End Store.

(** ** Requests, validation chains and replies *)

(** [req.body]: the text fields of the submitted form, by name. *)
Abbreviation Body := (gmap string string).

(** The value of a field as a validation chain or the handler reads it: an
    absent field reads as the empty string. *)
Definition field (b : Body) (name : string) : string :=
  default EmptyString (b !! name).

(** An entry of [errors.array()].  The errors the chains record carry the
    value they rejected and where it came from; the error [signup_post]
    writes out by hand has only [param] and [msg]. *)
Record ValidationError := mkValidationError {
  value : option string;
  msg : string;
  param : string;
  location : option string
}.

Module Chain.

(** What a stack of chains has done to the request so far: the body with the
    sanitized values written back, and the errors recorded, oldest first. *)
Definition state : Type := Body * list ValidationError.

(** A validator looks at the sanitized value and at the request body;
    it answers with the message of the error to record, if any. *)
Definition validator : Type := string -> Body -> option string.

(** A standard validator, with the message given to [body(name, message)]. *)
Definition standard (ok : string -> bool) (message : string) : validator :=
  fun v _ => if ok v then None else Some message.

(** [body(name, ...).trim().<validator>]: the trimmed value is written back
    to the body, then validated. *)
Definition body_trim (name : string) (check : validator) (st : state) : state :=
  let '(b, errors) := st in
  let v := Validator.trim (field b name) in
  let b' := <[name := v]> b in
  (b', (errors ++ match check v b' with
                  | Some m => [mkValidationError (Some v) m name (Some "body")]
                  | None => []
                  end)%list).

(** [body('*').escape()]: every field of the body is escaped. *)
Definition body_all_escape (st : state) : state :=
  let '(b, errors) := st in (Validator.escape <$> b, errors).

(** [errors.isEmpty()] *)
Definition isEmpty (errors : list ValidationError) : bool :=
  match errors with [] => true | _ :: _ => false end.

End Chain.

(** The parts of an Express request the handlers read.  [user] is the
    session identity Passport leaves in [req.user], a user document, absent
    when no one is logged in; [message_id] is the id the delete form posts
    as [req.body.message]. *)
Record Request := mkRequest {
  user : option User.doc;
  body : Body;
  params_id : ObjectId;
  message_id : ObjectId
}.

(** The values the handlers hand to the views. *)
Inductive Value :=
| VString (s : string)
| VUser (u : option User.doc)
| VBody (b : Body)
| VErrors (errors : list ValidationError)
| VMessage (m : Message.doc * option User.doc)
| VMessages (ms : list (Message.doc * option User.doc)).

(** What a handler does with [res] and [next], and how it can end badly. *)
Inductive Reply :=
| Render (view : string) (locals : list (string * Value))
| Redirect (path : string)
| Next (err : Error)
| Throw (err : Error).

(** The replies of a handler run, in the order they were issued, and the
    store it leaves. *)
Definition Outcome : Type := list Reply * Db.

(** Reading [id] of an absent [req.user]. *)
Definition TypeError_id : Error :=
  mkError "TypeError" "Cannot read property 'id' of undefined" None.

Definition not_found (message : string) : Error :=
  mkError "Error" message (Some 404).

(** ** The controllers *)

Section Controllers.

(** [bcrypt.hash(data, rounds)], as a function of the salt it draws too. *)
Variable bcrypt_hash : string -> nat -> string -> string.

(** [process.env.MEMBER_SECRET]: absent when the variable is not set. *)
Variable MEMBER_SECRET : option string.

Definition index (req : Request) (db : Db) : Outcome :=
  match Store.Message_find db with
  | (inl err, db1) => ([Next err], db1)
  | (inr messages, db1) =>
      ([Render "index" [("title", VString "Members Only");
                        ("user", VUser (user req));
                        ("messages", VMessages messages)]], db1)
  end.

Definition signup_get (req : Request) (db : Db) : Outcome :=
  ([Render "signup_form" [("title", VString "Sign Up")]], db).

(** The five chains in front of the signup handler. *)
Definition signup_chains (b : Body) : Chain.state :=
  let st := (b, []) in
  let st := Chain.body_trim "firstname"
              (Chain.standard Validator.isAlpha "Invalid first name") st in
  let st := Chain.body_trim "lastname"
              (Chain.standard Validator.isAlpha "Invalid last name") st in
  let st := Chain.body_trim "username"
              (Chain.standard Validator.isAlphanumeric "Invalid username") st in
  let st := Chain.body_trim "password"
              (Chain.standard (Validator.isLength 6) "Invalid password") st in
  Chain.body_trim "confirmpassword"
    (fun value req_body =>
       if decide (Some value = req_body !! "password") then None
       else Some "Password confirmation does not match password") st.

(** [new User({ ... })] in [signup_post]. *)
Definition new_User (b : Body) (hash : string) (db : Db) : User.doc :=
  User.mk (new_ObjectId (User._id <$> users db))
          (field b "firstname") (field b "lastname") (field b "username")
          hash false.

Definition signup_post (salt : string) (req : Request) (db : Db) : Outcome :=
  let '(req_body, errors) := signup_chains (body req) in
  if negb (Chain.isEmpty errors) then
    ([Render "signup_form" [("title", VString "Sign Up");
                            ("user", VBody req_body);
                            ("errors", VErrors errors)]], db)
  else
    let hash := bcrypt_hash (field req_body "password") 10 salt in
    let user := new_User req_body hash db in
    match Store.User_findOne (User.username user) db with
    | (inl error, db1) => ([Next error], db1)
    | (inr (Some found_user), db1) =>
        ([Render "signup_form"
            [("title", VString "Sign Up");
             ("user", VBody req_body);
             ("errors", VErrors [mkValidationError
                                   None "Username already in use." "username"
                                   None])]], db1)
    | (inr None, db1) =>
        match Store.User_save user db1 with
        | (inl error, db2) => ([Next error], db2)
        | (inr _, db2) => ([Redirect "/login"], db2)
        end
    end.

Definition login_get (req : Request) (db : Db) : Outcome :=
  ([Render "login_form" [("title", VString "Login");
                         ("user", VUser (user req))]], db).

Definition message_create_get (req : Request) (db : Db) : Outcome :=
  ([Render "message_form" [("title", VString "Create Message");
                           ("user", VUser (user req))]], db).

(** The three chains in front of the message-creation handler. *)
Definition message_create_chains (b : Body) : Chain.state :=
  let st := (b, []) in
  let st := Chain.body_trim "title"
              (Chain.standard (Validator.isLength 1) "Invalid title") st in
  let st := Chain.body_trim "message"
              (Chain.standard (Validator.isLength 1) "Invalid message") st in
  Chain.body_all_escape st.

(** The [else] branch of [message_create_post]: the message is built from
    the session identity and the form data, then saved. *)
Definition message_create_save (req : Request) (req_body : Body) (db : Db)
  : Outcome :=
  match user req with
  | None => ([Throw TypeError_id], db)
  | Some req_user =>
      let message :=
        Message.mk (new_ObjectId (Message._id <$> messages db))
                   (User._id req_user)
                   (field req_body "title") (field req_body "message") in
      match Store.Message_save message db with
      | (inl err, db1) => ([Next err], db1)
      | (inr _, db1) => ([Redirect "/"], db1)
      end
  end.

(** What [message_create_post] does after its check of [req.user]. *)
Definition message_create_rest (req : Request) (db : Db) : Outcome :=
  let '(req_body, errors) := message_create_chains (body req) in
  if negb (Chain.isEmpty errors) then
    ([Render "message_form" [("title", VString "Create Message");
                             ("user", VUser (user req));
                             ("message", VBody req_body);
                             ("errors", VErrors errors)]], db)
  else message_create_save req req_body db.

(** The check of [req.user] redirects and falls through. *)
Definition message_create_post (req : Request) (db : Db) : Outcome :=
  let redirected :=
    match user req with
    | None => [Redirect "/login"]
    | Some _ => []
    end in
  let '(replies, db') := message_create_rest req db in
  ((redirected ++ replies)%list, db').

Definition membership_get (req : Request) (db : Db) : Outcome :=
  ([Render "membership_form" [("title", VString "Membership form");
                              ("user", VUser (user req))]], db).

(** The chain in front of the membership handler. *)
Definition membership_chains (b : Body) : Chain.state :=
  Chain.body_trim "password"
    (fun value _ =>
       if decide (Some value = MEMBER_SECRET) then None
       else Some "Sorry, password is incorrect.") (b, []).

Definition membership_post (req : Request) (db : Db) : Outcome :=
  let '(req_body, errors) := membership_chains (body req) in
  if negb (Chain.isEmpty errors) then
    ([Render "membership_form" [("title", VString "Membership form");
                                ("user", VUser (user req));
                                ("errors", VErrors errors)]], db)
  else
    match Store.User_findById (User._id <$> user req) db with
    | (inl err, db1) => ([Next err], db1)
    | (inr None, db1) => ([Next (not_found "User not found")], db1)
    | (inr (Some user), db1) =>
        let user := User.set_membership_status true user in
        match Store.User_save user db1 with
        | (inl err, db2) => ([Next err], db2)
        | (inr _, db2) => ([Redirect "/"], db2)
        end
    end.

Definition message_delete_get (req : Request) (db : Db) : Outcome :=
  match user req with
  | None => ([Redirect "/login"], db)
  | Some _ =>
      match Store.Message_findById (params_id req) db with
      | (inl err, db1) => ([Next err], db1)
      | (inr None, db1) => ([Next (not_found "Message not found")], db1)
      | (inr (Some message), db1) =>
          ([Render "message_delete" [("title", VString "Delete message");
                                     ("user", VUser (user req));
                                     ("message", VMessage message)]], db1)
      end
  end.

Definition message_delete_post (req : Request) (db : Db) : Outcome :=
  match user req with
  | None => ([Redirect "/login"], db)
  | Some _ =>
      match Store.Message_findByIdAndRemove (message_id req) db with
      | (inl err, db1) => ([Next err], db1)
      | (inr _, db1) => ([Redirect "/"], db1)
      end
  end.

End Controllers.

(** [logout]: Passport's [req.logout()] drops the session identity from the
    request, then the reply is the redirect to home.  The request is handed
    back as the call leaves it. *)
Definition logout (req : Request) (db : Db) : Request * Outcome :=
  (mkRequest None (body req) (params_id req) (message_id req),
   ([Redirect "/"], db)).

(** ** The routing table *)

Module Router.

(** The controllers [module.exports] lists. *)
Inductive controller :=
| index
| signup_get
| signup_post
| login_get
| login_post
| logout
| message_create_get
| message_create_post
| membership_get
| membership_post
| message_delete_get
| message_delete_post.

#[global] Instance controller_eq_dec : EqDecision controller.
Proof. solve_decision. Defined.

(** [router.get] and [router.post]. *)
Inductive method := get | post.

(** The routes, in the order they are registered. *)
Definition routes : list (method * string * controller) :=
  [(get, "/", index);
   (get, "/signup", signup_get);
   (post, "/signup", signup_post);
   (get, "/login", login_get);
   (post, "/login", login_post);
   (get, "/logout", logout);
   (get, "/message/create", message_create_get);
   (post, "/message/create", message_create_post)].

(** A controller is mounted when some route hands requests to it. *)
Definition mounted (c : controller) : bool :=
  existsb (fun r => bool_decide (snd r = c)) routes.

End Router.

(** ** Runs of the application

    A call is a request in the hands of one controller, with the salt bcrypt
    draws when the controller is [signup_post].  [login_post] is Passport's
    [authenticate] itself: what it does is the strategy's, which is set up
    outside the controllers, and it is no call here. *)
Inductive Call :=
| Call_index (req : Request)
| Call_signup_get (req : Request)
| Call_signup_post (salt : string) (req : Request)
| Call_login_get (req : Request)
| Call_logout (req : Request)
| Call_message_create_get (req : Request)
| Call_message_create_post (req : Request)
| Call_membership_get (req : Request)
| Call_membership_post (req : Request)
| Call_message_delete_get (req : Request)
| Call_message_delete_post (req : Request).

Definition controller_of (c : Call) : Router.controller :=
  match c with
  | Call_index _ => Router.index
  | Call_signup_get _ => Router.signup_get
  | Call_signup_post _ _ => Router.signup_post
  | Call_login_get _ => Router.login_get
  | Call_logout _ => Router.logout
  | Call_message_create_get _ => Router.message_create_get
  | Call_message_create_post _ => Router.message_create_post
  | Call_membership_get _ => Router.membership_get
  | Call_membership_post _ => Router.membership_post
  | Call_message_delete_get _ => Router.message_delete_get
  | Call_message_delete_post _ => Router.message_delete_post
  end.

Definition request_of (c : Call) : Request :=
  match c with
  | Call_index req | Call_signup_get req | Call_signup_post _ req
  | Call_login_get req | Call_logout req | Call_message_create_get req
  | Call_message_create_post req | Call_membership_get req
  | Call_membership_post req | Call_message_delete_get req
  | Call_message_delete_post req => req
  end.

Section System.

Variable bcrypt_hash : string -> nat -> string -> string.
Variable MEMBER_SECRET : option string.

(** The controller of the call, run on its request. *)
Definition run (c : Call) (db : Db) : Outcome :=
  match c with
  | Call_index req => index req db
  | Call_signup_get req => signup_get req db
  | Call_signup_post salt req => signup_post bcrypt_hash salt req db
  | Call_login_get req => login_get req db
  | Call_logout req => snd (logout req db)
  | Call_message_create_get req => message_create_get req db
  | Call_message_create_post req => message_create_post req db
  | Call_membership_get req => membership_get req db
  | Call_membership_post req => membership_post MEMBER_SECRET req db
  | Call_message_delete_get req => message_delete_get req db
  | Call_message_delete_post req => message_delete_post req db
  end.

(** The store after the calls, served one after the other. *)
Definition run_all (cs : list Call) (db : Db) : Db :=
  foldl (fun d c => snd (run c d)) db cs.

End System.

(** ** What the chains compute

    The sanitized body and the errors of each stack of chains, written out
    field by field; the lemmas below show that the chains compute them. *)

(** The value a chain validates: the field, trimmed. *)
Definition trimmed (b : Body) (name : string) : string :=
  Validator.trim (field b name).

(** The body the signup handler reads once its chains have run. *)
Definition signup_sanitized (b : Body) : Body :=
  <["confirmpassword" := trimmed b "confirmpassword"]>
    (<["password" := trimmed b "password"]>
       (<["username" := trimmed b "username"]>
          (<["lastname" := trimmed b "lastname"]>
             (<["firstname" := trimmed b "firstname"]> b)))).

(** The body the message-creation handler reads once its chains have run. *)
Definition message_sanitized (b : Body) : Body :=
  Validator.escape <$>
    (<["message" := trimmed b "message"]> (<["title" := trimmed b "title"]> b)).

(** The error a chain records for a field, when its check fails. *)
Definition field_error (b : Body) (name message : string) (ok : bool)
  : list ValidationError :=
  if ok then []
  else [mkValidationError (Some (trimmed b name)) message name (Some "body")].

(** The errors the signup chains record, field by field. *)
Definition signup_errors (b : Body) : list ValidationError :=
  field_error b "firstname" "Invalid first name"
    (Validator.isAlpha (trimmed b "firstname")) ++
  field_error b "lastname" "Invalid last name"
    (Validator.isAlpha (trimmed b "lastname")) ++
  field_error b "username" "Invalid username"
    (Validator.isAlphanumeric (trimmed b "username")) ++
  field_error b "password" "Invalid password"
    (Validator.isLength 6 (trimmed b "password")) ++
  field_error b "confirmpassword" "Password confirmation does not match password"
    (bool_decide (trimmed b "confirmpassword" = trimmed b "password")).

(** The errors the message-creation chains record. *)
Definition message_errors (b : Body) : list ValidationError :=
  field_error b "title" "Invalid title"
    (negb (Validator.is_empty (trimmed b "title"))) ++
  field_error b "message" "Invalid message"
    (negb (Validator.is_empty (trimmed b "message"))).

(** The error the membership chain records. *)
Definition membership_errors (secret : option string) (b : Body)
  : list ValidationError :=
  field_error b "password" "Sorry, password is incorrect."
    (bool_decide (Some (trimmed b "password") = secret)).

(** ** Sample data, to run the handlers on *)

(** A stand-in for bcrypt, to run [signup_post] on concrete requests: like
    a bcrypt hash it is longer than the data and has no white space at
    either end. *)
Definition sample_hash (data : string) (rounds : nat) (salt : string) : string :=
  "$2a$" +:+ salt +:+ data +:+ "$".

Definition form (fields : list (string * string)) : Body := list_to_map fields.

Definition bob : User.doc :=
  User.mk 1%N "Bob" "Builder" "bob" "$2a$saltbuilder1$" false.

Definition hello : Message.doc := Message.mk 7%N 1%N "Hello" "First post".

Definition sample_db : Db := mkDb [bob] [hello] [] [].

(** A form posted under the session identity [u]. *)
Definition post (u : option User.doc) (fields : list (string * string))
  : Request :=
  mkRequest u (form fields) 0%N 0%N.

(** A request of the delete pages for the message [id]. *)
Definition delete_request (u : option User.doc) (id : ObjectId) : Request :=
  mkRequest u (form []) id id.

Definition signup_request (first last name pass confirm : string) : Request :=
  post None [("firstname", first); ("lastname", last); ("username", name);
             ("password", pass); ("confirmpassword", confirm)].

(** The requests run below. *)
Definition anonymous_post : Request :=
  post None [("title", "Hi"); ("message", "<b>hello</b>")].

Definition blank_title_post : Request :=
  post (Some bob) [("title", "  "); ("message", "<b>")].

Definition new_user_signup : Request :=
  signup_request "Jon" "Doe" "newuser" "secret1" "secret1".

Definition padded_bob_signup : Request :=
  signup_request "Jon" "Doe" " bob" "secret1" "secret1".

Definition bob_again_signup : Request :=
  signup_request "Jon" "Doe" "bob" "secret1" "secret1".

Definition invalid_name_signup : Request :=
  signup_request "Jo1n" "Doe" "bob" "secret1" "secret1".

Definition padded_name_signup : Request :=
  signup_request "  Jo1n  " "Doe" "newuser" "secret1" "secret1".

Definition secret_post : Request := post (Some bob) [("password", "s3cret")].

Definition padded_secret_post : Request :=
  post (Some bob) [("password", "s3cret ")].

Definition wrong_secret_post : Request :=
  post (Some bob) [("password", "guess")].

Definition anonymous_secret_post : Request :=
  post None [("password", "s3cret")].

Definition spaced_secret_post : Request :=
  post (Some bob) [("password", " s3cret")].

Definition hello_delete : Request := delete_request (Some bob) 7%N.

Definition missing_message_delete : Request := delete_request (Some bob) 9%N.

(** ** What the properties are stated with *)

(** A stored user as a later store holds it: as it was, or a member. *)
Definition upgraded (u u' : User.doc) : Prop :=
  u' = u \/ u' = User.set_membership_status true u.

(** The names a user signs up under pass the checks of the signup chains. *)
Definition valid_user (u : User.doc) : bool :=
  Validator.isAlpha (User.first_name u)
  && Validator.isAlpha (User.last_name u)
  && Validator.isAlphanumeric (User.username u).

(** The characters [escape] rewrites, the ampersand apart: an escaped
    string has none of them. *)
Definition is_markup (c : ascii) : bool :=
  let n := N_of_ascii c in
  ((n =? 34) || (n =? 39) || (n =? 60) || (n =? 62) || (n =? 47)
   || (n =? 92) || (n =? 96))%N.

Definition html_safe (s : string) : bool :=
  Validator.all_chars (fun c => negb (is_markup c)) s.

(** A message as [message_create_post] stores one: a title and a text that
    are not empty and carry no markup. *)
Definition valid_message (m : Message.doc) : bool :=
  negb (Validator.is_empty (Message.title m))
  && negb (Validator.is_empty (Message.text m))
  && html_safe (Message.title m) && html_safe (Message.text m).

(** What one call can do to the two collections: nothing, or the one write
    of its controller. *)
Inductive effect (c : Call) (db db' : Db) : Prop :=
| effect_none :
    users db' = users db -> messages db' = messages db -> effect c db db'
| effect_signup (new : User.doc) :
    controller_of c = Router.signup_post ->
    users db' = users db ++ [new] -> messages db' = messages db ->
    User._id new = new_ObjectId (User._id <$> users db) ->
    List.find (Store.has_username (User.username new)) (users db) = None ->
    valid_user new = true -> User.membership_status new = false ->
    effect c db db'
| effect_membership (su u : User.doc) :
    controller_of c = Router.membership_post ->
    user (request_of c) = Some su -> User._id u = User._id su ->
    List.find (Store.has_user_id (User._id u)) (users db) = Some u ->
    users db' = Store.replace_first (Store.has_user_id (User._id u))
                  (User.set_membership_status true u) (users db) ->
    messages db' = messages db ->
    effect c db db'
| effect_create (su : User.doc) (m : Message.doc) :
    controller_of c = Router.message_create_post ->
    user (request_of c) = Some su -> Message.user m = User._id su ->
    Message._id m = new_ObjectId (Message._id <$> messages db) ->
    valid_message m = true ->
    messages db' = messages db ++ [m] -> users db' = users db ->
    effect c db db'
| effect_delete (su : User.doc) :
    controller_of c = Router.message_delete_post ->
    user (request_of c) = Some su ->
    messages db' = Store.remove_first
                     (Store.has_message_id (message_id (request_of c)))
                     (messages db) ->
    users db' = users db ->
    effect c db db'.

(** The fields of the signup form, in the order of their chains. *)
Definition signup_fields : list string :=
  ["firstname"; "lastname"; "username"; "password"; "confirmpassword"].

(** The same request under another session identity. *)
Definition with_user (u : option User.doc) (req : Request) : Request :=
  mkRequest u (body req) (params_id req) (message_id req).

Definition alice : User.doc :=
  User.mk 2%N "Alice" "Liddell" "alice" "$2a$saltwonderland$" true.

Definition hello_post : Request :=
  post (Some bob) [("title", " Hi "); ("message", "<b>hello</b>")].

Definition sample_calls : list Call :=
  [Call_signup_post "salt" new_user_signup;
   Call_message_create_post hello_post;
   Call_membership_post secret_post;
   Call_index anonymous_post;
   Call_message_delete_post hello_delete;
   Call_logout secret_post].

(** Scenario A of the spec: a digit in the first name. *)
Example scenario_A :
  exists req_body,
    signup_post sample_hash "salt"
      (signup_request "Jo1n" "Doe" "newuser" "secret1" "secret1") sample_db =
      ([Render "signup_form"
          [("title", VString "Sign Up"); ("user", VBody req_body);
           ("errors", VErrors [mkValidationError (Some "Jo1n")
                                 "Invalid first name" "firstname"
                                 (Some "body")])]], sample_db).
Proof. eexists. vm_compute. reflexivity. Qed.

(** Scenario B of the spec: a valid submission with a new username. *)
Example scenario_B :
  signup_post sample_hash "salt" new_user_signup sample_db =
    ([Redirect "/login"],
     mkDb [bob; User.mk 2%N "Jon" "Doe" "newuser" "$2a$saltsecret1$" false]
          [hello] [] [Op_User_findOne "newuser"; Op_User_save 2%N]).
Proof. vm_compute. reflexivity. Qed.

(** Scenario D of the spec: a wrong membership password. *)
Example scenario_D :
  membership_post (Some "s3cret") wrong_secret_post sample_db =
    ([Render "membership_form"
        [("title", VString "Membership form"); ("user", VUser (Some bob));
         ("errors", VErrors [mkValidationError (Some "guess")
                               "Sorry, password is incorrect." "password"
                               (Some "body")])]], sample_db).
Proof. vm_compute. reflexivity. Qed.

(** Scenario E of the spec: the membership password is the secret. *)
Example scenario_E :
  membership_post (Some "s3cret") secret_post sample_db =
    ([Redirect "/"],
     mkDb [User.set_membership_status true bob] [hello] []
          [Op_User_findById (Some 1%N); Op_User_save 1%N]).
Proof. vm_compute. reflexivity. Qed.

(** Scenario F of the spec, on the delete page and on the delete action. *)
Example scenario_F_page :
  message_delete_get missing_message_delete sample_db =
    ([Next (mkError "Error" "Message not found" (Some 404))],
     mkDb [bob] [hello] [] [Op_Message_findById 9%N]).
Proof. vm_compute. reflexivity. Qed.

Example scenario_F_action :
  message_delete_post hello_delete sample_db =
    ([Redirect "/"], mkDb [bob] [] [] [Op_Message_findByIdAndRemove 7%N]).
Proof. vm_compute. reflexivity. Qed.

(** A store call that fails is handed to [next]. *)
Example store_failure :
  message_delete_post hello_delete
    (mkDb [bob] [hello] [Some (mkError "MongoError" "connection lost" None)] []) =
    ([Next (mkError "MongoError" "connection lost" None)],
     mkDb [bob] [hello] [] [Op_Message_findByIdAndRemove 7%N]).
Proof. vm_compute. reflexivity. Qed.

Example trim_padded : Validator.trim "  Jo1n  " = "Jo1n".
Proof. reflexivity. Qed.

Example trim_inner : Validator.trim " a b " = "a b".
Proof. reflexivity. Qed.

Example isAlpha_Jo1n : Validator.isAlpha "Jo1n" = false.
Proof. reflexivity. Qed.

Example escape_tag : Validator.escape "<b>" = "&lt;b&gt;".
Proof. reflexivity. Qed.

(** ** Lemmas on the library models *)

Lemma field_insert_eq (b : Body) (k v : string) : field (<[k := v]> b) k = v.
Proof. unfold field. by rewrite lookup_insert_eq. Qed.

Lemma field_insert_ne (b : Body) (k k' v : string) :
  k <> k' -> field (<[k := v]> b) k' = field b k'.
Proof. intros H. unfold field. by rewrite lookup_insert_ne. Qed.

Lemma is_empty_true (s : string) :
  Validator.is_empty s = true <-> s = EmptyString.
Proof. destruct s; simpl; split; congruence. Qed.

Lemma isLength_1 (s : string) :
  Validator.isLength 1 s = negb (Validator.is_empty s).
Proof. by destruct s. Qed.

Lemma is_empty_append (a b : string) :
  Validator.is_empty (a +:+ b) = Validator.is_empty a && Validator.is_empty b.
Proof. by destruct a. Qed.

Lemma rtrim_append_char (a : string) (c : ascii) :
  Validator.is_space c = false ->
  Validator.rtrim (a +:+ String c EmptyString) = a +:+ String c EmptyString.
Proof.
  intros Hc. induction a as [|h a IH]; simpl.
  - by rewrite Hc.
  - rewrite IH, is_empty_append. simpl. by rewrite !andb_false_r.
Qed.

Lemma length_append (a b : string) :
  String.length (a +:+ b) = String.length a + String.length b.
Proof. induction a as [|h a IH]; simpl; [done | by rewrite IH]. Qed.

(** The stand-in never returns its data... *)
Lemma sample_hash_differs (data : string) (rounds : nat) (salt : string) :
  sample_hash data rounds salt <> data.
Proof.
  intros H. apply (f_equal String.length) in H. unfold sample_hash in H.
  rewrite !length_append in H. simpl in H. lia.
Qed.

(** ...and has nothing to trim. *)
Lemma sample_hash_trimmed (data : string) (rounds : nat) (salt : string) :
  Validator.trim (sample_hash data rounds salt) = sample_hash data rounds salt.
Proof.
  unfold sample_hash, Validator.trim.
  change ("$2a$" +:+ salt +:+ data +:+ "$")
    with (String "$" ("2a$" +:+ salt +:+ data +:+ "$")).
  cbn [Validator.ltrim]. change (Validator.is_space "$") with false. cbv iota.
  change (String "$" ("2a$" +:+ salt +:+ data +:+ "$"))
    with ("$2a$" +:+ (salt +:+ (data +:+ "$"))).
  assert (Hassoc : forall x y z : string, x +:+ (y +:+ z) = (x +:+ y) +:+ z).
  { intros x y z. induction x as [|h x IH]; [done |].
    change (String h (x +:+ (y +:+ z)) = String h ((x +:+ y) +:+ z)).
    by f_equal. }
  rewrite !Hassoc. by apply rtrim_append_char.
Qed.

(** ** Lemmas on the store *)

Lemma call_calm {A : Type} (op : StoreOp) (run : Db -> A * Db) (db : Db) (n : nat) :
  Store.calm (S n) db ->
  Store.call op run db =
    (inr (fst (run (Store.logged op db))), snd (run (Store.logged op db))).
Proof.
  unfold Store.calm, Store.call. intros H.
  destruct (faults db) as [|[e|] fs]; simpl in *.
  - by destruct (run _).
  - apply Forall_cons in H as [H _]. discriminate.
  - by destruct (run _).
Qed.

Lemma calm_logged (op : StoreOp) (db : Db) (n : nat) :
  Store.calm (S n) db -> Store.calm n (Store.logged op db).
Proof.
  unfold Store.calm. simpl. destruct (faults db) as [|f fs]; simpl.
  - intros _. rewrite take_nil. constructor.
  - intros H. by apply Forall_cons in H as [_ H].
Qed.

Lemma calm_nil (n : nat) (db : Db) : faults db = [] -> Store.calm n db.
Proof. unfold Store.calm. intros ->. rewrite take_nil. constructor. Qed.

(** The id drawn for a new document is above every id in use. *)
Lemma new_ObjectId_above (ids : list ObjectId) (i : ObjectId) :
  i ∈ ids -> (i < new_ObjectId ids)%N.
Proof.
  unfold new_ObjectId. induction 1 as [i ids | i j ids _ IH]; simpl; lia.
Qed.

Lemma new_user_id_fresh (db : Db) :
  existsb (Store.has_user_id (new_ObjectId (User._id <$> users db))) (users db)
  = false.
Proof.
  apply not_true_is_false. intros H.
  apply existsb_exists in H as (u & Hu & Hid).
  unfold Store.has_user_id in Hid. apply N.eqb_eq in Hid.
  assert (Hlt : (User._id u < new_ObjectId (User._id <$> users db))%N).
  { apply new_ObjectId_above, list_elem_of_fmap. exists u.
    split; [done | by apply list_elem_of_In]. }
  lia.
Qed.

Lemma new_message_id_fresh (db : Db) :
  existsb (Store.has_message_id (new_ObjectId (Message._id <$> messages db)))
          (messages db) = false.
Proof.
  apply not_true_is_false. intros H.
  apply existsb_exists in H as (m & Hm & Hid).
  unfold Store.has_message_id in Hid. apply N.eqb_eq in Hid.
  assert (Hlt : (Message._id m < new_ObjectId (Message._id <$> messages db))%N).
  { apply new_ObjectId_above, list_elem_of_fmap. exists m.
    split; [done | by apply list_elem_of_In]. }
  lia.
Qed.

(** Where [find] finds a document, [replace_first] writes and
    [remove_first] cuts. *)
Lemma find_split {A : Type} (p : A -> bool) (l : list A) (x : A) :
  List.find p l = Some x ->
  exists l1 l2, l = l1 ++ x :: l2 /\ p x = true /\ Forall (fun y => p y = false) l1.
Proof.
  induction l as [|y l IH]; simpl; [done |].
  destruct (p y) eqn:Hy.
  - intros [= ->]. exists [], l. by repeat split.
  - intros (l1 & l2 & -> & Hx & Hl1)%IH. exists (y :: l1), l2.
    repeat split; [done | by constructor].
Qed.

Lemma find_none {A : Type} (p : A -> bool) (l : list A) :
  List.find p l = None <-> Forall (fun y => p y = false) l.
Proof.
  induction l as [|y l IH]; simpl.
  - split; [constructor | done].
  - destruct (p y) eqn:Hy.
    + split; [done |]. intros [H _]%Forall_cons. congruence.
    + rewrite IH. split; [by constructor | by intros [_ H]%Forall_cons].
Qed.

Lemma replace_first_split {A : Type} (p : A -> bool) (l1 l2 : list A) (x y : A) :
  Forall (fun z => p z = false) l1 -> p x = true ->
  Store.replace_first p y (l1 ++ x :: l2) = l1 ++ y :: l2.
Proof.
  intros Hl1 Hx. induction Hl1 as [|z l1 Hz _ IH]; simpl.
  - by rewrite Hx.
  - by rewrite Hz, IH.
Qed.

Lemma remove_first_split {A : Type} (p : A -> bool) (l1 l2 : list A) (x : A) :
  Forall (fun z => p z = false) l1 -> p x = true ->
  Store.remove_first p (l1 ++ x :: l2) = l1 ++ l2.
Proof.
  intros Hl1 Hx. induction Hl1 as [|z l1 Hz _ IH]; simpl.
  - by rewrite Hx.
  - by rewrite Hz, IH.
Qed.

Lemma remove_first_none {A : Type} (p : A -> bool) (l : list A) :
  Forall (fun z => p z = false) l -> Store.remove_first p l = l.
Proof.
  induction 1 as [|z l Hz _ IH]; simpl; [done |]. by rewrite Hz, IH.
Qed.

Lemma existsb_split {A : Type} (p : A -> bool) (l1 l2 : list A) (x : A) :
  p x = true -> existsb p (l1 ++ x :: l2) = true.
Proof.
  intros Hx. rewrite existsb_app. simpl. rewrite Hx.
  by rewrite orb_true_r.
Qed.

(** ** Lemmas on the validation chains *)

Lemma signup_chains_body (b : Body) :
  fst (signup_chains b) = signup_sanitized b.
Proof.
  unfold signup_chains, signup_sanitized, Chain.body_trim, trimmed. simpl.
  by rewrite !field_insert_ne.
Qed.

Lemma message_create_chains_body (b : Body) :
  fst (message_create_chains b) = message_sanitized b.
Proof.
  unfold message_create_chains, message_sanitized, Chain.body_trim,
    Chain.body_all_escape, trimmed. simpl.
  by rewrite !field_insert_ne.
Qed.

Lemma signup_chains_errors (b : Body) :
  snd (signup_chains b) = signup_errors b.
Proof.
  unfold signup_chains, signup_errors, field_error, Chain.body_trim,
    Chain.standard, trimmed. simpl.
  rewrite !field_insert_ne by done.
  rewrite lookup_insert_ne, lookup_insert_eq by done.
  destruct (decide _) as [He | He];
    destruct (bool_decide_reflect
                (Validator.trim (field b "confirmpassword")
                 = Validator.trim (field b "password"))) as [Hb | Hb];
    try (exfalso; congruence);
    repeat match goal with
           | |- context [if ?c then _ else _] => destruct c
           end; reflexivity.
Qed.

Lemma signup_chains_eq (b : Body) :
  signup_chains b = (signup_sanitized b, signup_errors b).
Proof.
  rewrite <- signup_chains_body, <- signup_chains_errors.
  by destruct (signup_chains b).
Qed.

Lemma message_create_chains_errors (b : Body) :
  snd (message_create_chains b) = message_errors b.
Proof.
  unfold message_create_chains, message_errors, field_error, Chain.body_trim,
    Chain.body_all_escape, Chain.standard, trimmed. simpl.
  rewrite !field_insert_ne by done. rewrite !isLength_1.
  by destruct (Validator.is_empty (Validator.trim (field b "title"))),
       (Validator.is_empty (Validator.trim (field b "message"))).
Qed.

Lemma message_create_chains_eq (b : Body) :
  message_create_chains b = (message_sanitized b, message_errors b).
Proof.
  rewrite <- message_create_chains_body, <- message_create_chains_errors.
  by destruct (message_create_chains b).
Qed.

Lemma membership_chains_eq (secret : option string) (b : Body) :
  membership_chains secret b =
    (<["password" := trimmed b "password"]> b, membership_errors secret b).
Proof.
  unfold membership_chains, membership_errors, field_error, Chain.body_trim,
    trimmed. simpl.
  destruct (decide _);
    destruct (bool_decide_reflect
                (Some (Validator.trim (field b "password")) = secret));
    simpl; congruence.
Qed.

Lemma field_error_nil (b : Body) (name message : string) (ok : bool) :
  field_error b name message ok = [] <-> ok = true.
Proof. unfold field_error. destruct ok; split; congruence. Qed.

(** A signup submission has no validation error exactly when each of its
    fields, trimmed, passes its check. *)
Lemma signup_errors_nil (b : Body) :
  signup_errors b = [] <->
  Validator.isAlpha (trimmed b "firstname") = true /\
  Validator.isAlpha (trimmed b "lastname") = true /\
  Validator.isAlphanumeric (trimmed b "username") = true /\
  6 <= String.length (trimmed b "password") /\
  trimmed b "confirmpassword" = trimmed b "password".
Proof.
  unfold signup_errors. rewrite !app_nil, !field_error_nil.
  rewrite bool_decide_eq_true. unfold Validator.isLength.
  rewrite Nat.leb_le. tauto.
Qed.

(** A message submission has a validation error exactly when its title or
    its text is empty once trimmed. *)
Lemma message_errors_not_nil (b : Body) :
  message_errors b <> [] <->
  trimmed b "title" = EmptyString \/ trimmed b "message" = EmptyString.
Proof.
  unfold message_errors, field_error. rewrite <- !is_empty_true.
  destruct (Validator.is_empty (trimmed b "title")),
    (Validator.is_empty (trimmed b "message")); simpl;
    split; try congruence; try tauto; intros [H | H]; congruence.
Qed.

Lemma membership_errors_nil (secret : option string) (b : Body) :
  membership_errors secret b = [] <-> secret = Some (trimmed b "password").
Proof.
  unfold membership_errors. rewrite field_error_nil, bool_decide_eq_true.
  split; congruence.
Qed.

Lemma isEmpty_false (errors : list ValidationError) :
  errors <> [] -> Chain.isEmpty errors = false.
Proof. by destruct errors. Qed.

(** ** Message creation *)

(** C1.  An unauthenticated POST to the message-creation handler is
    redirected to the login page and the handler goes on all the same: what
    it does after the check of [req.user] is run in full.  When the chains
    recorded an error the form is rendered again, after the redirect; when
    the fields are valid the creation branch is entered.  There the attempt
    ends at once: reading the id of the absent session identity throws,
    before the store is called, and the store is left as it was. *)
Theorem message_create_post_unauthenticated (req : Request) (db : Db) :
  user req = None ->
  message_create_post req db =
    (Redirect "/login" :: fst (message_create_rest req db),
     snd (message_create_rest req db)) /\
  (snd (message_create_chains (body req)) <> [] ->
   message_create_post req db =
     ([Redirect "/login";
       Render "message_form"
         [("title", VString "Create Message");
          ("user", VUser None);
          ("message", VBody (message_sanitized (body req)));
          ("errors", VErrors (snd (message_create_chains (body req))))]], db)) /\
  (snd (message_create_chains (body req)) = [] ->
   message_create_rest req db =
     message_create_save req (message_sanitized (body req)) db /\
   message_create_post req db = ([Redirect "/login"; Throw TypeError_id], db)).
Proof.
  intros Hu.
  assert (Hpost : message_create_post req db =
            (Redirect "/login" :: fst (message_create_rest req db),
             snd (message_create_rest req db))).
  { unfold message_create_post. rewrite Hu.
    by destruct (message_create_rest req db). }
  split; [exact Hpost |]. rewrite Hpost. unfold message_create_rest.
  rewrite message_create_chains_eq. simpl. split.
  - intros He. by rewrite isEmpty_false, Hu.
  - intros He. rewrite He. simpl. unfold message_create_save.
    by rewrite Hu.
Qed.

Lemma message_create_post_unauthenticated_witness :
  user anonymous_post = None /\
  message_create_post anonymous_post sample_db =
    ([Redirect "/login"; Throw TypeError_id], sample_db).
Proof.
  split; [reflexivity |].
  destruct (message_create_post_unauthenticated anonymous_post sample_db
              eq_refl) as (_ & _ & Hvalid).
  destruct (Hvalid eq_refl) as [_ Hpost]. exact Hpost.
Defined.

(** X19.  The creation branch for a caller who is logged in.  When the
    fields are valid and the store call goes through, exactly one message is
    appended to the collection, authored by the caller, with the title and
    the text trimmed and escaped; the users are left as they were and the
    reply is the redirect to home. *)
Lemma message_create_post_creates (req : Request) (db : Db) (u : User.doc) :
  user req = Some u ->
  snd (message_create_chains (body req)) = [] ->
  Store.calm 1 db ->
  exists db',
    message_create_post req db = ([Redirect "/"], db') /\
    messages db' =
      messages db ++
        [Message.mk (new_ObjectId (Message._id <$> messages db)) (User._id u)
           (field (message_sanitized (body req)) "title")
           (field (message_sanitized (body req)) "message")] /\
    users db' = users db.
Proof.
  intros Hu Hvalid Hcalm. rewrite message_create_chains_errors in Hvalid.
  eexists. split.
  - unfold message_create_post, message_create_rest, message_create_save.
    rewrite message_create_chains_eq, Hvalid, Hu. simpl.
    unfold Store.Message_save. rewrite (call_calm _ _ db 0 Hcalm). simpl.
    rewrite new_message_id_fresh. reflexivity.
  - by split.
Qed.

(** C5, as the claim states it, fails: the form is not rendered with the data
    as submitted.  The text [<b>] comes back escaped. *)
Lemma message_form_echo_is_escaped :
  user blank_title_post = Some bob /\
  Validator.trim (field (body blank_title_post) "title") = EmptyString /\
  body blank_title_post !! "message" = Some "<b>" /\
  exists req_body errors,
    message_create_post blank_title_post sample_db =
      ([Render "message_form"
          [("title", VString "Create Message"); ("user", VUser (Some bob));
           ("message", VBody req_body); ("errors", VErrors errors)]],
       sample_db) /\
    req_body !! "message" = Some "&lt;b&gt;" /\
    req_body <> body blank_title_post.
Proof.
  repeat split; try reflexivity.
  eexists _, _. split; [vm_compute; reflexivity |].
  split; [reflexivity |].
  intros H. apply (f_equal (fun b : Body => b !! "message")) in H.
  vm_compute in H. discriminate.
Qed.

(** C5, amended.  When the title or the text of a message submitted by an
    authenticated caller is empty once trimmed, no message is created: the
    store is not called and is left as it was.  The form is rendered again
    with the field errors and with the submitted data as the chains left
    them, that is with the title and the text trimmed and every field
    HTML-escaped. *)
Theorem message_create_post_invalid (req : Request) (db : Db) (u : User.doc) :
  user req = Some u ->
  Validator.trim (field (body req) "title") = EmptyString \/
  Validator.trim (field (body req) "message") = EmptyString ->
  snd (message_create_chains (body req)) <> [] /\
  message_create_post req db =
    ([Render "message_form"
        [("title", VString "Create Message");
         ("user", VUser (Some u));
         ("message", VBody (Validator.escape <$>
                              (<["message" := Validator.trim (field (body req) "message")]>
                                 (<["title" := Validator.trim (field (body req) "title")]>
                                    (body req)))));
         ("errors", VErrors (snd (message_create_chains (body req))))]], db).
Proof.
  intros Hu Hempty. apply message_errors_not_nil in Hempty.
  rewrite message_create_chains_errors. split; [done |].
  unfold message_create_post, message_create_rest.
  rewrite message_create_chains_eq, Hu. simpl.
  by rewrite isEmpty_false.
Qed.

Lemma message_create_post_invalid_witness :
  user blank_title_post = Some bob /\
  (Validator.trim (field (body blank_title_post) "title") = EmptyString \/
   Validator.trim (field (body blank_title_post) "message") = EmptyString) /\
  snd (message_create_post blank_title_post sample_db) = sample_db.
Proof.
  split; [reflexivity |]. split; [left; reflexivity |].
  destruct (message_create_post_invalid blank_title_post sample_db bob
              eq_refl (or_introl eq_refl)) as [_ H].
  rewrite H. reflexivity.
Defined.

(** ** Signup *)

Lemma signup_sanitized_fields (b : Body) :
  field (signup_sanitized b) "firstname" = trimmed b "firstname" /\
  field (signup_sanitized b) "lastname" = trimmed b "lastname" /\
  field (signup_sanitized b) "username" = trimmed b "username" /\
  field (signup_sanitized b) "password" = trimmed b "password".
Proof.
  unfold signup_sanitized.
  repeat split; rewrite ?field_insert_ne by done; apply field_insert_eq.
Qed.

Lemma find_username_none (name : string) (us : list User.doc) :
  (forall u, u ∈ us -> User.username u <> name) ->
  List.find (Store.has_username name) us = None.
Proof.
  intros H. apply find_none, Forall_forall. intros u Hu.
  unfold Store.has_username. apply String.eqb_neq. by apply H.
Qed.

(** C2, as the claim states it, fails: the username is compared once
    trimmed.  The submission passes validation and its username, with a
    leading space, is the username of no stored user; the lookup is made for
    the trimmed name, finds bob, and no user is persisted. *)
Lemma signup_padded_username_conflict :
  snd (signup_chains (body padded_bob_signup)) = [] /\
  (forall u, u ∈ users sample_db ->
             User.username u <> field (body padded_bob_signup) "username") /\
  exists req_body errors db',
    signup_post sample_hash "salt" padded_bob_signup sample_db =
      ([Render "signup_form"
          [("title", VString "Sign Up"); ("user", VBody req_body);
           ("errors", VErrors errors)]], db') /\
    users db' = users sample_db /\
    log db' = [Op_User_findOne "bob"].
Proof.
  split; [reflexivity |]. split.
  - intros u Hu. apply list_elem_of_singleton in Hu. subst u.
    intros H. vm_compute in H. discriminate.
  - eexists _, _, _. split; [vm_compute; reflexivity |]. by split.
Qed.

(** C2, amended.  When a signup submission passes field validation and its
    username, once trimmed, is the username of no stored user, and the two
    store calls go through, exactly one user is persisted: the collection
    gains one document at its end, built from the trimmed fields, with
    [membership_status] false and, as its password, the bcrypt hash of the
    password the handler read.  A hash is never the data hashed and has no
    white space to trim, so the stored password is neither the trimmed nor
    the submitted password.  The reply is a redirect to the login action. *)
Theorem signup_post_creates_user
    (bcrypt_hash : string -> nat -> string -> string)
    (salt : string) (req : Request) (db : Db) :
  (forall data rounds s, bcrypt_hash data rounds s <> data) ->
  (forall data rounds s,
      Validator.trim (bcrypt_hash data rounds s) = bcrypt_hash data rounds s) ->
  snd (signup_chains (body req)) = [] ->
  (forall u, u ∈ users db ->
             User.username u <> Validator.trim (field (body req) "username")) ->
  Store.calm 2 db ->
  exists new db',
    signup_post bcrypt_hash salt req db = ([Redirect "/login"], db') /\
    users db' = users db ++ [new] /\
    messages db' = messages db /\
    log db' = log db ++ [Op_User_findOne (User.username new);
                         Op_User_save (User._id new)] /\
    new = User.mk (new_ObjectId (User._id <$> users db))
                  (Validator.trim (field (body req) "firstname"))
                  (Validator.trim (field (body req) "lastname"))
                  (Validator.trim (field (body req) "username"))
                  (bcrypt_hash (Validator.trim (field (body req) "password")) 10 salt)
                  false /\
    User.password new <> Validator.trim (field (body req) "password") /\
    User.password new <> field (body req) "password".
Proof.
  intros Hdiff Htrim Hvalid Hfree Hcalm.
  rewrite signup_chains_errors in Hvalid.
  destruct (signup_sanitized_fields (body req)) as (Hf & Hl & Hn & Hp).
  eexists _, _. split; [| split; [| split; [| split; [| split; [reflexivity |]]]]].
  - unfold signup_post. rewrite signup_chains_eq, Hvalid. simpl.
    unfold new_User. rewrite Hf, Hl, Hn, Hp. simpl.
    unfold Store.User_findOne. rewrite (call_calm _ _ db 1 Hcalm). simpl.
    rewrite (find_username_none (trimmed (body req) "username") _ Hfree).
    unfold Store.User_save.
    rewrite (call_calm _ _ _ 0 (calm_logged _ db 1 Hcalm)). simpl.
    rewrite new_user_id_fresh. reflexivity.
  - reflexivity.
  - reflexivity.
  - simpl. by rewrite <- app_assoc.
  - simpl. split; [apply Hdiff |].
    intros H. apply (Hdiff (field (body req) "password") 10 salt).
    rewrite <- H at 2. f_equal.
    unfold trimmed. rewrite <- H at 2. by rewrite Htrim.
Qed.

Lemma signup_post_creates_user_witness :
  snd (signup_chains (body new_user_signup)) = [] /\
  Store.calm 2 sample_db /\
  exists new db',
    signup_post sample_hash "salt" new_user_signup sample_db =
      ([Redirect "/login"], db') /\
    users db' = users sample_db ++ [new] /\
    User.membership_status new = false.
Proof.
  split; [reflexivity |]. split; [apply calm_nil; reflexivity |].
  destruct (signup_post_creates_user sample_hash "salt" new_user_signup
              sample_db sample_hash_differs sample_hash_trimmed eq_refl)
    as (new & db' & Hpost & Husers & _ & _ & Hnew & _).
  - intros u Hu. apply list_elem_of_singleton in Hu. subst u.
    intros H. vm_compute in H. discriminate.
  - apply calm_nil. reflexivity.
  - exists new, db'. split; [exact Hpost |]. split; [exact Husers |].
    rewrite Hnew. reflexivity.
Defined.

Lemma find_username_some (name : string) (us : list User.doc) :
  (exists u, u ∈ us /\ User.username u = name) ->
  exists found, List.find (Store.has_username name) us = Some found.
Proof.
  intros (u & Hu & Hname).
  destruct (List.find (Store.has_username name) us) as [found |] eqn:Hfind;
    [by exists found |].
  apply find_none in Hfind. rewrite Forall_forall in Hfind.
  specialize (Hfind u Hu). unfold Store.has_username in Hfind.
  apply String.eqb_neq in Hfind. done.
Qed.

(** C3, as the claim states it, fails: a submission whose username is taken
    but whose first name is invalid is answered with the validation error,
    not with the error on the username. *)
Lemma signup_taken_username_invalid_name :
  (exists u, u ∈ users sample_db /\
             User.username u = field (body invalid_name_signup) "username") /\
  exists req_body errors,
    signup_post sample_hash "salt" invalid_name_signup sample_db =
      ([Render "signup_form"
          [("title", VString "Sign Up"); ("user", VBody req_body);
           ("errors", VErrors errors)]], sample_db) /\
    errors = [mkValidationError (Some "Jo1n") "Invalid first name" "firstname"
                (Some "body")] /\
    errors <> [mkValidationError None "Username already in use." "username"
                 None].
Proof.
  split.
  - exists bob. split; [apply list_elem_of_singleton |]; reflexivity.
  - eexists _, _. split; [vm_compute; reflexivity |].
    split; [reflexivity | discriminate].
Qed.

(** C3, amended.  When a signup submission passes field validation and its
    username, once trimmed, is the username of a stored user, and the lookup
    goes through, the collections are left as they were (the store is only
    asked for the user) and the form is rendered again with the sanitized
    submission and a single error, tagged to the username field, with the
    message "Username already in use.". *)
Theorem signup_post_username_taken
    (bcrypt_hash : string -> nat -> string -> string)
    (salt : string) (req : Request) (db : Db) :
  snd (signup_chains (body req)) = [] ->
  (exists u, u ∈ users db /\
             User.username u = Validator.trim (field (body req) "username")) ->
  Store.calm 1 db ->
  exists db',
    signup_post bcrypt_hash salt req db =
      ([Render "signup_form"
          [("title", VString "Sign Up");
           ("user", VBody (signup_sanitized (body req)));
           ("errors", VErrors [mkValidationError
                                 None "Username already in use." "username"
                                 None])]], db') /\
    users db' = users db /\
    messages db' = messages db /\
    log db' = log db ++ [Op_User_findOne
                           (Validator.trim (field (body req) "username"))].
Proof.
  intros Hvalid Htaken Hcalm.
  rewrite signup_chains_errors in Hvalid.
  destruct (signup_sanitized_fields (body req)) as (_ & _ & Hn & _).
  apply find_username_some in Htaken as [found Hfound].
  eexists. split.
  - unfold signup_post. rewrite signup_chains_eq, Hvalid. simpl.
    unfold new_User. rewrite Hn. simpl.
    unfold Store.User_findOne. rewrite (call_calm _ _ db 0 Hcalm). simpl.
    fold (trimmed (body req) "username") in Hfound. rewrite Hfound.
    reflexivity.
  - by repeat split.
Qed.

Lemma signup_post_username_taken_witness :
  snd (signup_chains (body bob_again_signup)) = [] /\
  Store.calm 1 sample_db /\
  exists db',
    signup_post sample_hash "salt" bob_again_signup sample_db =
      ([Render "signup_form"
          [("title", VString "Sign Up");
           ("user", VBody (signup_sanitized (body bob_again_signup)));
           ("errors", VErrors [mkValidationError
                                 None "Username already in use." "username"
                                 None])]], db') /\
    users db' = [bob].
Proof.
  split; [reflexivity |]. split; [apply calm_nil; reflexivity |].
  destruct (signup_post_username_taken sample_hash "salt" bob_again_signup
              sample_db eq_refl)
    as (db' & Hpost & Husers & _).
  - exists bob. split; [apply list_elem_of_singleton |]; reflexivity.
  - apply calm_nil. reflexivity.
  - exists db'. split; [exact Hpost | exact Husers].
Defined.

(** C4, as the claim states it, fails: the form is not rendered with the
    values as submitted.  The first name comes back trimmed. *)
Lemma signup_form_echo_is_trimmed :
  snd (signup_chains (body padded_name_signup)) <> [] /\
  body padded_name_signup !! "firstname" = Some "  Jo1n  " /\
  exists req_body errors,
    signup_post sample_hash "salt" padded_name_signup sample_db =
      ([Render "signup_form"
          [("title", VString "Sign Up"); ("user", VBody req_body);
           ("errors", VErrors errors)]], sample_db) /\
    req_body !! "firstname" = Some "Jo1n" /\
    req_body <> body padded_name_signup.
Proof.
  split; [vm_compute; discriminate |]. split; [reflexivity |].
  eexists _, _. split; [vm_compute; reflexivity |].
  split; [reflexivity |].
  intros H. apply (f_equal (fun b : Body => b !! "firstname")) in H.
  vm_compute in H. discriminate.
Qed.

(** The fields a signup chain can tag an error to. *)
Lemma signup_errors_fields (b : Body) :
  Forall (fun e => param e ∈ ["firstname"; "lastname"; "username";
                              "password"; "confirmpassword"]
                   /\ location e = Some "body")
         (signup_errors b).
Proof.
  unfold signup_errors, field_error.
  repeat (apply Forall_app; split);
    match goal with
    | |- context [if ?c then _ else _] => destruct c
    end; repeat constructor.
Qed.

(** C4, amended.  When a signup submission fails field validation no user is
    created and the store is not called at all: it is left exactly as it
    was, however often the same submission is repeated.  The form is
    rendered again with the field-level errors and with the submitted values
    as the chains left them, that is with the five validated fields trimmed
    (an absent one reads as empty). *)
Theorem signup_post_invalid
    (bcrypt_hash : string -> nat -> string -> string)
    (salt : string) (req : Request) (db : Db) :
  snd (signup_chains (body req)) <> [] ->
  signup_post bcrypt_hash salt req db =
    ([Render "signup_form"
        [("title", VString "Sign Up");
         ("user", VBody (signup_sanitized (body req)));
         ("errors", VErrors (snd (signup_chains (body req))))]], db) /\
  Forall (fun e => param e ∈ ["firstname"; "lastname"; "username";
                              "password"; "confirmpassword"]
                   /\ location e = Some "body")
         (snd (signup_chains (body req))) /\
  forall n : nat,
    Nat.iter n (fun d => snd (signup_post bcrypt_hash salt req d)) db = db.
Proof.
  intros Hinvalid.
  assert (Hpost : forall d, signup_post bcrypt_hash salt req d =
            ([Render "signup_form"
                [("title", VString "Sign Up");
                 ("user", VBody (signup_sanitized (body req)));
                 ("errors", VErrors (snd (signup_chains (body req))))]], d)).
  { intros d. unfold signup_post. rewrite signup_chains_eq in *.
    simpl in *. by rewrite isEmpty_false. }
  split; [apply Hpost |]. split.
  - rewrite signup_chains_errors. apply signup_errors_fields.
  - induction n as [|n IH]; simpl; [done |]. by rewrite IH, Hpost.
Qed.

Lemma signup_post_invalid_witness :
  snd (signup_chains (body padded_name_signup)) <> [] /\
  Nat.iter 3 (fun d => snd (signup_post sample_hash "salt" padded_name_signup d))
    sample_db = sample_db.
Proof.
  assert (H : snd (signup_chains (body padded_name_signup)) <> [])
    by (vm_compute; discriminate).
  split; [exact H |].
  destruct (signup_post_invalid sample_hash "salt" padded_name_signup
              sample_db H) as (_ & _ & Hiter).
  apply Hiter.
Defined.

(** What failing field validation comes to, for a signup submission. *)
Lemma signup_invalid_iff (b : Body) :
  snd (signup_chains b) <> [] <->
  ~ (Validator.isAlpha (Validator.trim (field b "firstname")) = true /\
     Validator.isAlpha (Validator.trim (field b "lastname")) = true /\
     Validator.isAlphanumeric (Validator.trim (field b "username")) = true /\
     6 <= String.length (Validator.trim (field b "password")) /\
     Validator.trim (field b "confirmpassword")
     = Validator.trim (field b "password")).
Proof. by rewrite signup_chains_errors, signup_errors_nil. Qed.

(** ** Membership *)

Lemma find_app_split {A : Type} (p : A -> bool) (l1 l2 : list A) (x : A) :
  Forall (fun z => p z = false) l1 -> p x = true ->
  List.find p (l1 ++ x :: l2) = Some x.
Proof.
  intros Hl1 Hx. induction Hl1 as [|z l1 Hz _ IH]; simpl.
  - by rewrite Hx.
  - by rewrite Hz.
Qed.

Lemma find_some_existsb {A : Type} (p : A -> bool) (l : list A) (x : A) :
  List.find p l = Some x -> existsb p l = true.
Proof.
  intros (l1 & l2 & -> & Hx & _)%find_split. by apply existsb_split.
Qed.

(** Where [find] finds a document, [replace_first] is an update by index. *)
Lemma replace_first_insert {A : Type} (p : A -> bool) (l : list A) (x y : A) :
  List.find p l = Some x ->
  exists i, l !! i = Some x /\ Store.replace_first p y l = <[i := y]> l.
Proof.
  induction l as [|z l IH]; simpl; [done |].
  destruct (p z) eqn:Hz.
  - intros [= ->]. by exists 0.
  - intros (i & Hi & Hr)%IH. exists (S i). simpl. by rewrite Hr.
Qed.

Lemma has_user_id_eq (id : ObjectId) (u : User.doc) :
  Store.has_user_id id u = true <-> User._id u = id.
Proof. unfold Store.has_user_id. apply N.eqb_eq. Qed.

Lemma has_message_id_false (id : ObjectId) (m : Message.doc) :
  Store.has_message_id id m = false <-> Message._id m <> id.
Proof. unfold Store.has_message_id. apply N.eqb_neq. Qed.

(** The run of [membership_post] on a valid secret, a session identity
    whose record is found, and two calls that go through. *)
Lemma membership_post_found
    (secret : option string) (req : Request) (db : Db) (su u : User.doc) :
  secret = Some (trimmed (body req) "password") ->
  user req = Some su ->
  List.find (Store.has_user_id (User._id su)) (users db) = Some u ->
  Store.calm 2 db ->
  membership_post secret req db =
    ([Redirect "/"],
     mkDb (Store.replace_first (Store.has_user_id (User._id su))
             (User.set_membership_status true u) (users db))
          (messages db) (tail (tail (faults db)))
          (log db ++ [Op_User_findById (Some (User._id su));
                      Op_User_save (User._id su)])).
Proof.
  intros Hsecret Hu Hfind Hcalm.
  assert (Hid : User._id u = User._id su).
  { apply find_split in Hfind as (_ & _ & _ & Hp & _).
    by apply has_user_id_eq. }
  unfold membership_post.
  rewrite membership_chains_eq.
  rewrite (proj2 (membership_errors_nil _ _) Hsecret). simpl.
  rewrite Hu. simpl.
  unfold Store.User_findById. rewrite (call_calm _ _ db 1 Hcalm). simpl.
  rewrite Hfind.
  unfold Store.User_save.
  rewrite (call_calm _ _ _ 0 (calm_logged _ db 1 Hcalm)). simpl.
  rewrite Hid, (find_some_existsb _ _ _ Hfind).
  unfold Store.set_users, Store.logged. simpl.
  by rewrite <- app_assoc.
Qed.

(** C6, as the claim states it, fails: the password is compared once
    trimmed.  With a secret that starts with a space, the password equal to
    it is turned down, and bob stays a non-member. *)
Lemma membership_spaced_secret_rejected :
  body spaced_secret_post !! "password" = Some " s3cret" /\
  user spaced_secret_post = Some bob /\
  List.find (Store.has_user_id (User._id bob)) (users sample_db) = Some bob /\
  membership_post (Some " s3cret") spaced_secret_post sample_db =
    ([Render "membership_form"
        [("title", VString "Membership form"); ("user", VUser (Some bob));
         ("errors", VErrors [mkValidationError (Some "s3cret")
                               "Sorry, password is incorrect." "password"
                               (Some "body")])]], sample_db) /\
  User.membership_status bob = false.
Proof. repeat split. Qed.

(** C6, amended.  When the password of a membership submission, once
    trimmed, equals the configured secret and the session identity has a
    record in the store, then, the two store calls going through, that
    record is persisted with [membership_status] true (looking the identity
    up again finds it so) and the reply is a redirect to home.  When no
    record is found for the session identity, the lookup going through, an
    error "User not found" with status 404 is handed to [next]. *)
Theorem membership_post_unlocks
    (secret : option string) (req : Request) (db : Db) (su : User.doc) :
  secret = Some (Validator.trim (field (body req) "password")) ->
  user req = Some su ->
  (forall u,
      List.find (Store.has_user_id (User._id su)) (users db) = Some u ->
      Store.calm 2 db ->
      exists db',
        membership_post secret req db = ([Redirect "/"], db') /\
        List.find (Store.has_user_id (User._id su)) (users db')
        = Some (User.set_membership_status true u) /\
        User.membership_status (User.set_membership_status true u) = true) /\
  (List.find (Store.has_user_id (User._id su)) (users db) = None ->
   Store.calm 1 db ->
   exists db',
     membership_post secret req db =
       ([Next (mkError "Error" "User not found" (Some 404))], db') /\
     users db' = users db /\ messages db' = messages db).
Proof.
  intros Hsecret Hu. split.
  - intros u Hfind Hcalm. eexists. split; [| split; [| done]].
    + by apply membership_post_found.
    + simpl. pose proof Hfind as (l1 & l2 & -> & Hp & Hl1)%find_split.
      rewrite (replace_first_split _ _ _ _ _ Hl1 Hp).
      by apply find_app_split.
  - intros Hfind Hcalm. eexists. split.
    + unfold membership_post. rewrite membership_chains_eq.
      rewrite (proj2 (membership_errors_nil _ _) Hsecret). simpl.
      rewrite Hu. simpl.
      unfold Store.User_findById. rewrite (call_calm _ _ db 0 Hcalm). simpl.
      rewrite Hfind. reflexivity.
    + by split.
Qed.

Lemma membership_post_unlocks_witness :
  user secret_post = Some bob /\
  List.find (Store.has_user_id (User._id bob)) (users sample_db) = Some bob /\
  Store.calm 2 sample_db /\
  exists db',
    membership_post (Some "s3cret") secret_post sample_db
    = ([Redirect "/"], db') /\
    List.find (Store.has_user_id (User._id bob)) (users db')
    = Some (User.set_membership_status true bob).
Proof.
  split; [reflexivity |]. split; [reflexivity |].
  split; [apply calm_nil; reflexivity |].
  destruct (membership_post_unlocks (Some "s3cret") secret_post sample_db bob
              eq_refl eq_refl) as [Hfound _].
  destruct (Hfound bob eq_refl (calm_nil 2 sample_db eq_refl))
    as (db' & Hpost & Hfind & _).
  exists db'. split; [exact Hpost | exact Hfind].
Defined.

(** C7, as the claim states it, fails: a password that differs from the
    secret by a trailing space is taken for the secret, and bob's record is
    modified. *)
Lemma membership_padded_secret_accepted :
  body padded_secret_post !! "password" = Some "s3cret " /\
  "s3cret " <> "s3cret" /\
  User.membership_status bob = false /\
  exists db',
    membership_post (Some "s3cret") padded_secret_post sample_db
    = ([Redirect "/"], db') /\
    users db' = [User.set_membership_status true bob].
Proof.
  split; [reflexivity |]. split; [discriminate |]. split; [reflexivity |].
  eexists. split; [vm_compute; reflexivity | reflexivity].
Qed.

(** C7, amended.  When the password of a membership submission, once
    trimmed, differs from the configured secret (or no secret is
    configured), the form is rendered again with the one error "Sorry,
    password is incorrect." on the password field; the store is not called
    and no record is modified. *)
Theorem membership_post_wrong_secret
    (secret : option string) (req : Request) (db : Db) :
  secret <> Some (Validator.trim (field (body req) "password")) ->
  membership_post secret req db =
    ([Render "membership_form"
        [("title", VString "Membership form");
         ("user", VUser (user req));
         ("errors", VErrors [mkValidationError
                               (Some (Validator.trim (field (body req) "password")))
                               "Sorry, password is incorrect." "password"
                               (Some "body")])]], db).
Proof.
  intros Hwrong. unfold membership_post. rewrite membership_chains_eq.
  unfold membership_errors, field_error.
  rewrite bool_decide_eq_false_2 by (unfold trimmed; congruence).
  reflexivity.
Qed.

Lemma membership_post_wrong_secret_witness :
  Some "s3cret" <> Some (Validator.trim (field (body wrong_secret_post) "password")) /\
  snd (membership_post (Some "s3cret") wrong_secret_post sample_db) = sample_db.
Proof.
  assert (H : Some "s3cret"
              <> Some (Validator.trim (field (body wrong_secret_post) "password")))
    by (vm_compute; discriminate).
  split; [exact H |].
  rewrite (membership_post_wrong_secret (Some "s3cret") wrong_secret_post
             sample_db H).
  reflexivity.
Defined.

(** C9.  The membership handler does not check [req.user]: an
    unauthenticated POST is never answered with a redirect to the login
    page.  With the correct secret (the trimmed password is the configured
    secret) the handler looks a user up for the absent session identity; the
    lookup going through, it finds none and hands the error "User not
    found", status 404, to [next], the collections being left as they were.
    With a wrong secret the form is rendered again. *)
Theorem membership_post_unauthenticated
    (secret : option string) (req : Request) (db : Db) :
  user req = None ->
  (Redirect "/login" ∉ fst (membership_post secret req db)) /\
  (secret = Some (Validator.trim (field (body req) "password")) ->
   Store.calm 1 db ->
   exists db',
     membership_post secret req db =
       ([Next (mkError "Error" "User not found" (Some 404))], db') /\
     users db' = users db /\ messages db' = messages db /\
     log db' = log db ++ [Op_User_findById None]) /\
  (secret <> Some (Validator.trim (field (body req) "password")) ->
   membership_post secret req db =
     ([Render "membership_form"
         [("title", VString "Membership form");
          ("user", VUser None);
          ("errors", VErrors [mkValidationError
                                (Some (Validator.trim (field (body req) "password")))
                                "Sorry, password is incorrect." "password"
                                (Some "body")])]], db)).
Proof.
  intros Hu. split; [| split].
  - unfold membership_post. rewrite membership_chains_eq, Hu.
    destruct (Chain.isEmpty _); simpl.
    + unfold Store.User_findById, Store.call.
      destruct (head (faults db)) as [[e |] |]; simpl;
        intros H; apply list_elem_of_singleton in H; discriminate.
    + intros H; apply list_elem_of_singleton in H; discriminate.
  - intros Hsecret Hcalm. eexists. split.
    + unfold membership_post. rewrite membership_chains_eq.
      rewrite (proj2 (membership_errors_nil _ _) Hsecret). simpl.
      rewrite Hu. simpl.
      unfold Store.User_findById. rewrite (call_calm _ _ db 0 Hcalm).
      reflexivity.
    + by repeat split.
  - intros Hwrong. unfold membership_post. rewrite membership_chains_eq, Hu.
    unfold membership_errors, field_error.
    rewrite bool_decide_eq_false_2 by (unfold trimmed; congruence).
    reflexivity.
Qed.

Lemma membership_post_unauthenticated_witness :
  user anonymous_secret_post = None /\
  Store.calm 1 sample_db /\
  exists db',
    membership_post (Some "s3cret") anonymous_secret_post sample_db =
      ([Next (mkError "Error" "User not found" (Some 404))], db') /\
    users db' = users sample_db.
Proof.
  split; [reflexivity |]. split; [apply calm_nil; reflexivity |].
  destruct (membership_post_unauthenticated (Some "s3cret")
              anonymous_secret_post sample_db eq_refl) as (_ & Hcorrect & _).
  destruct (Hcorrect eq_refl (calm_nil 1 sample_db eq_refl))
    as (db' & Hpost & Husers & _).
  exists db'. split; [exact Hpost | exact Husers].
Defined.

(** What a run of [membership_post] that ends in the redirect to home has
    done. *)
Lemma membership_post_redirect_inv
    (secret : option string) (req : Request) (db : Db) :
  fst (membership_post secret req db) = [Redirect "/"] ->
  exists su u,
    user req = Some su /\
    List.find (Store.has_user_id (User._id su)) (users db) = Some u /\
    users (snd (membership_post secret req db)) =
      Store.replace_first (Store.has_user_id (User._id su))
        (User.set_membership_status true u) (users db) /\
    messages (snd (membership_post secret req db)) = messages db.
Proof.
  unfold membership_post. rewrite membership_chains_eq.
  destruct (Chain.isEmpty _); simpl; [| discriminate].
  unfold Store.User_findById, Store.call.
  destruct (head (faults db)) as [[e |] |]; simpl; try discriminate.
  all: destruct (user req) as [su |]; simpl; try discriminate.
  all: destruct (List.find _ (users db)) as [u |] eqn:Hfind; try discriminate.
  all: unfold Store.User_save, Store.call; simpl.
  all: destruct (head (tail (faults db))) as [[e |] |]; simpl;
    try discriminate.
  all: intros _; exists su, u; split; [done |]; split; [done |].
  all: assert (Hid : User._id u = User._id su)
    by (apply find_split in Hfind as (_ & _ & _ & Hp & _);
        by apply has_user_id_eq).
  all: rewrite Hid, (find_some_existsb _ _ _ Hfind); by split.
Qed.

(** C10.  A membership unlock that succeeds (the handler answers with the
    redirect to home) writes one field of one record: the collection of
    users is the old one with, at the place of the session user's record,
    that record with [membership_status] true.  Its id, username, first
    name, last name and password hash are as before, every other record is
    as before, and so is the collection of messages. *)
Theorem membership_post_frame
    (secret : option string) (req : Request) (db : Db) :
  fst (membership_post secret req db) = [Redirect "/"] ->
  exists (su u u' : User.doc) (i : nat),
    user req = Some su /\
    User._id u = User._id su /\
    users db !! i = Some u /\
    users (snd (membership_post secret req db)) = <[i := u']> (users db) /\
    User.membership_status u' = true /\
    User._id u' = User._id u /\
    User.username u' = User.username u /\
    User.first_name u' = User.first_name u /\
    User.last_name u' = User.last_name u /\
    User.password u' = User.password u /\
    (forall j, j <> i ->
       users (snd (membership_post secret req db)) !! j = users db !! j) /\
    messages (snd (membership_post secret req db)) = messages db.
Proof.
  intros (su & u & Hu & Hfind & Husers & Hmessages)%membership_post_redirect_inv.
  destruct (replace_first_insert _ _ _ (User.set_membership_status true u) Hfind)
    as (i & Hi & Hreplace).
  exists su, u, (User.set_membership_status true u), i.
  rewrite Husers, Hreplace.
  repeat split; try done.
  - apply find_split in Hfind as (_ & _ & _ & Hp & _).
    by apply has_user_id_eq.
  - intros j Hj. by apply list_lookup_insert_ne.
Qed.

Lemma membership_post_frame_witness :
  fst (membership_post (Some "s3cret") secret_post sample_db) = [Redirect "/"] /\
  messages (snd (membership_post (Some "s3cret") secret_post sample_db))
  = messages sample_db.
Proof.
  split; [reflexivity |].
  destruct (membership_post_frame (Some "s3cret") secret_post sample_db eq_refl)
    as (su & u & u' & i & H).
  apply H.
Defined.

(** ** Message deletion *)

(** C8, as the claim states it, fails: the POST handler does not look at
    what was removed.  An authenticated delete POST that names a message no
    one stored is answered with the redirect to home, not with an error. *)
Lemma delete_post_missing_message_redirects :
  user missing_message_delete = Some bob /\
  List.find (Store.has_message_id (message_id missing_message_delete))
    (messages sample_db) = None /\
  exists db',
    message_delete_post missing_message_delete sample_db
    = ([Redirect "/"], db') /\
    messages db' = messages sample_db.
Proof.
  split; [reflexivity |]. split; [reflexivity |].
  eexists. split; [vm_compute; reflexivity | reflexivity].
Qed.

(** C8, amended.  For an authenticated caller whose store call goes
    through: the delete page (GET) asked for a message id that is not in the
    store hands an error "Message not found", status 404, to [next]; the
    delete action (POST) naming a stored message removes that message, and
    nothing else, and redirects to home; the delete action naming an id that
    is not in the store leaves the collections as they were and redirects to
    home as well. *)
Theorem message_delete_authenticated (req : Request) (db : Db) (u : User.doc) :
  user req = Some u ->
  Store.calm 1 db ->
  (List.find (Store.has_message_id (params_id req)) (messages db) = None ->
   exists db',
     message_delete_get req db =
       ([Next (mkError "Error" "Message not found" (Some 404))], db') /\
     users db' = users db /\ messages db' = messages db) /\
  (forall m,
      List.find (Store.has_message_id (message_id req)) (messages db) = Some m ->
      exists db' before after,
        message_delete_post req db = ([Redirect "/"], db') /\
        messages db = before ++ m :: after /\
        messages db' = before ++ after /\
        Message._id m = message_id req /\
        Forall (fun x => Message._id x <> message_id req) before /\
        users db' = users db) /\
  (List.find (Store.has_message_id (message_id req)) (messages db) = None ->
   exists db',
     message_delete_post req db = ([Redirect "/"], db') /\
     users db' = users db /\ messages db' = messages db).
Proof.
  intros Hu Hcalm. split; [| split].
  - intros Hfind. eexists. split.
    + unfold message_delete_get. rewrite Hu.
      unfold Store.Message_findById. rewrite (call_calm _ _ db 0 Hcalm).
      simpl. rewrite Hfind. reflexivity.
    + by split.
  - intros m Hfind.
    pose proof Hfind as (before & after & Hsplit & Hm & Hbefore)%find_split.
    eexists _, before, after. split.
    + unfold message_delete_post. rewrite Hu.
      unfold Store.Message_findByIdAndRemove.
      rewrite (call_calm _ _ db 0 Hcalm). reflexivity.
    + simpl. rewrite Hsplit at 2.
      rewrite (remove_first_split _ _ _ _ Hbefore Hm).
      repeat split; try done.
      * unfold Store.has_message_id in Hm. by apply N.eqb_eq in Hm.
      * eapply Forall_impl; [exact Hbefore |].
        intros x Hx. by apply has_message_id_false.
  - intros Hfind. eexists. split.
    + unfold message_delete_post. rewrite Hu.
      unfold Store.Message_findByIdAndRemove.
      rewrite (call_calm _ _ db 0 Hcalm). reflexivity.
    + simpl. split; [done |].
      apply remove_first_none. by apply find_none.
Qed.

Lemma message_delete_authenticated_witness :
  user hello_delete = Some bob /\
  Store.calm 1 sample_db /\
  exists db',
    message_delete_post hello_delete sample_db = ([Redirect "/"], db') /\
    messages db' = [].
Proof.
  split; [reflexivity |]. split; [apply calm_nil; reflexivity |].
  destruct (message_delete_authenticated hello_delete sample_db bob eq_refl
              (calm_nil 1 sample_db eq_refl)) as (_ & Hremove & _).
  destruct (Hremove hello eq_refl)
    as (db' & before & after & Hpost & Hsplit & Hrest & _ & Hbefore & _).
  exists db'. split; [exact Hpost |].
  rewrite Hrest.
  destruct before as [| x before].
  - simpl in Hsplit. injection Hsplit as <-. reflexivity.
  - simpl in Hsplit. injection Hsplit as <- Hnil.
    apply Forall_cons in Hbefore as [Hx _]. by exfalso.
Defined.

(** ** The application as a whole *)

(** *** The models of the libraries *)

Lemma all_chars_append (p : ascii -> bool) (a b : string) :
  Validator.all_chars p (a +:+ b)
  = Validator.all_chars p a && Validator.all_chars p b.
Proof.
  induction a as [|c a IH]; [done |].
  change (Validator.all_chars p (String c (a +:+ b))
          = Validator.all_chars p (String c a) && Validator.all_chars p b).
  simpl. by rewrite IH, andb_assoc.
Qed.

Lemma escape_char_safe (c : ascii) : html_safe (Validator.escape_char c) = true.
Proof.
  unfold Validator.escape_char, html_safe, is_markup.
  repeat match goal with
         | |- context [if ?t then _ else _] => destruct t eqn:?
         end; try reflexivity.
  simpl. repeat match goal with H : _ = false |- _ => rewrite H; clear H end.
  reflexivity.
Qed.

(** An escaped string carries no markup. *)
Lemma escape_safe (s : string) : html_safe (Validator.escape s) = true.
Proof.
  induction s as [|c s IH]; [done |].
  pose proof (escape_char_safe c) as Hc.
  unfold html_safe in *. simpl. rewrite all_chars_append.
  by rewrite Hc, IH.
Qed.

Lemma escape_char_not_empty (c : ascii) :
  Validator.is_empty (Validator.escape_char c) = false.
Proof.
  unfold Validator.escape_char.
  repeat match goal with
         | |- context [if ?t then _ else _] => destruct t
         end; reflexivity.
Qed.

(** Escaping empties no string. *)
Lemma escape_is_empty (s : string) :
  Validator.is_empty (Validator.escape s) = Validator.is_empty s.
Proof.
  destruct s as [|c s]; [done |]. simpl.
  by rewrite is_empty_append, escape_char_not_empty.
Qed.

Lemma field_fmap_escape (b : Body) (k : string) :
  field (Validator.escape <$> b) k = Validator.escape (field b k).
Proof. unfold field. rewrite lookup_fmap. by destruct (b !! k). Qed.

Lemma message_sanitized_fields (b : Body) :
  field (message_sanitized b) "title" = Validator.escape (trimmed b "title") /\
  field (message_sanitized b) "message" = Validator.escape (trimmed b "message").
Proof.
  unfold message_sanitized. rewrite !field_fmap_escape.
  split; [rewrite field_insert_ne by done |]; by rewrite field_insert_eq.
Qed.

Lemma message_errors_nil (b : Body) :
  message_errors b = [] <->
  Validator.is_empty (trimmed b "title") = false /\
  Validator.is_empty (trimmed b "message") = false.
Proof.
  unfold message_errors. rewrite app_nil, !field_error_nil, !negb_true_iff.
  tauto.
Qed.

Lemma ltrim_head (s : string) :
  match Validator.ltrim s with
  | EmptyString => True
  | String c _ => Validator.is_space c = false
  end.
Proof.
  induction s as [|c s IH]; simpl; [done |].
  destruct (Validator.is_space c) eqn:Hc; [exact IH | simpl; exact Hc].
Qed.

Lemma rtrim_idempotent (s : string) :
  Validator.rtrim (Validator.rtrim s) = Validator.rtrim s.
Proof.
  induction s as [|c s IH]; simpl; [done |].
  destruct (Validator.is_space c && Validator.is_empty (Validator.rtrim s))
    eqn:Hc; simpl; [done |].
  by rewrite IH, Hc.
Qed.

(** Trimming twice is trimming once. *)
Lemma trim_idempotent (s : string) :
  Validator.trim (Validator.trim s) = Validator.trim s.
Proof.
  unfold Validator.trim. pose proof (ltrim_head s) as Hhead.
  destruct (Validator.ltrim s) as [|c r]; [done |].
  simpl. rewrite Hhead. simpl. rewrite Hhead.
  change (Validator.rtrim (String c (Validator.rtrim r))
          = String c (Validator.rtrim r)).
  simpl. by rewrite Hhead, rtrim_idempotent.
Qed.

(** *** What one call does to the collections *)

Lemma signup_post_effect
    (bcrypt_hash : string -> nat -> string -> string)
    (salt : string) (req : Request) (db : Db) :
  effect (Call_signup_post salt req) db
         (snd (signup_post bcrypt_hash salt req db)).
Proof.
  unfold signup_post. rewrite signup_chains_eq.
  destruct (signup_errors (body req)) as [|e errors] eqn:He; simpl;
    [| by constructor 1].
  apply signup_errors_nil in He as (Hfirst & Hlast & Hname & _).
  destruct (signup_sanitized_fields (body req)) as (Hf & Hl & Hn & Hp).
  unfold new_User. rewrite Hf, Hl, Hn, Hp. simpl.
  unfold Store.User_findOne, Store.call.
  destruct (head (faults db)) as [[e |] |]; simpl; try by constructor 1.
  all: destruct (List.find _ (users db)) as [found |] eqn:Hfind; simpl;
    try by constructor 1.
  all: unfold Store.User_save, Store.call; simpl.
  all: destruct (head (tail (faults db))) as [[e |] |]; simpl;
    try by constructor 1.
  all: rewrite new_user_id_fresh.
  all: eapply effect_signup; simpl; try reflexivity; try exact Hfind.
  all: unfold valid_user; simpl; by rewrite Hfirst, Hlast, Hname.
Qed.

Lemma membership_post_effect
    (secret : option string) (req : Request) (db : Db) :
  effect (Call_membership_post req) db (snd (membership_post secret req db)).
Proof.
  unfold membership_post. rewrite membership_chains_eq.
  destruct (Chain.isEmpty _); simpl; [| by constructor 1].
  unfold Store.User_findById, Store.call.
  destruct (head (faults db)) as [[e |] |]; simpl; try by constructor 1.
  all: destruct (user req) as [su |] eqn:Hu; simpl; try by constructor 1.
  all: destruct (List.find _ (users db)) as [u |] eqn:Hfind; simpl;
    try by constructor 1.
  all: unfold Store.User_save, Store.call; simpl.
  all: destruct (head (tail (faults db))) as [[e |] |]; simpl;
    try by constructor 1.
  all: assert (Hid : User._id u = User._id su)
    by (apply find_split in Hfind as (_ & _ & _ & Hp & _);
        by apply has_user_id_eq).
  all: rewrite Hid, (find_some_existsb _ _ _ Hfind).
  all: apply (effect_membership _ _ _ su u); simpl; try done.
  all: by rewrite Hid.
Qed.

Lemma message_create_post_effect (req : Request) (db : Db) :
  effect (Call_message_create_post req) db (snd (message_create_post req db)).
Proof.
  unfold message_create_post, message_create_rest.
  rewrite message_create_chains_eq.
  destruct (message_errors (body req)) as [|e errors] eqn:He; simpl;
    [| by constructor 1].
  apply message_errors_nil in He as [Htitle Htext].
  destruct (message_sanitized_fields (body req)) as [Ht Hm].
  unfold message_create_save. rewrite Ht, Hm.
  destruct (user req) as [su |] eqn:Hu; simpl; [| by constructor 1].
  unfold Store.Message_save, Store.call.
  destruct (head (faults db)) as [[e |] |]; simpl; try by constructor 1.
  all: rewrite new_message_id_fresh.
  all: eapply (effect_create _ _ _ su); simpl; try reflexivity; try done.
  all: unfold valid_message; simpl; rewrite !escape_is_empty.
  all: by rewrite Htitle, Htext, !escape_safe.
Qed.

Lemma message_delete_post_effect (req : Request) (db : Db) :
  effect (Call_message_delete_post req) db (snd (message_delete_post req db)).
Proof.
  unfold message_delete_post.
  destruct (user req) as [su |] eqn:Hu; simpl; [| by constructor 1].
  unfold Store.Message_findByIdAndRemove, Store.call.
  destruct (head (faults db)) as [[e |] |]; simpl; try by constructor 1.
  all: by apply (effect_delete _ _ _ su).
Qed.

Lemma run_effect
    (bcrypt_hash : string -> nat -> string -> string)
    (secret : option string) (c : Call) (db : Db) :
  effect c db (snd (run bcrypt_hash secret c db)).
Proof.
  destruct c as [req | req | salt req | req | req | req | req | req | req
                | req | req]; simpl.
  - unfold index, Store.Message_find, Store.call.
    destruct (head (faults db)) as [[e |] |]; by constructor 1.
  - by constructor 1.
  - apply signup_post_effect.
  - by constructor 1.
  - by constructor 1.
  - by constructor 1.
  - apply message_create_post_effect.
  - by constructor 1.
  - apply membership_post_effect.
  - unfold message_delete_get.
    destruct (user req); [| by constructor 1].
    unfold Store.Message_findById, Store.call.
    destruct (head (faults db)) as [[e |] |]; simpl;
      try destruct (List.find _ (messages db)); by constructor 1.
  - apply message_delete_post_effect.
Qed.

(** *** What no run of the application undoes *)

Lemma upgraded_trans (u v w : User.doc) :
  upgraded u v -> upgraded v w -> upgraded u w.
Proof.
  unfold upgraded. intros [-> | ->] [-> | ->]; auto.
Qed.

Lemma Forall2_upgraded_refl (l : list User.doc) : Forall2 upgraded l l.
Proof. induction l; constructor; [by left | done]. Qed.

Lemma replace_first_upgraded (p : User.doc -> bool) (l : list User.doc)
    (u : User.doc) :
  List.find p l = Some u ->
  Forall2 upgraded l (Store.replace_first p (User.set_membership_status true u) l).
Proof.
  induction l as [|z l IH]; simpl; [done |].
  destruct (p z) eqn:Hz.
  - intros [= ->]. constructor; [by right | apply Forall2_upgraded_refl].
  - intros H. constructor; [by left | by apply IH].
Qed.

Lemma run_all_cons
    (bcrypt_hash : string -> nat -> string -> string)
    (secret : option string) (c : Call) (cs : list Call) (db : Db) :
  run_all bcrypt_hash secret (c :: cs) db
  = run_all bcrypt_hash secret cs (snd (run bcrypt_hash secret c db)).
Proof. reflexivity. Qed.

Lemma effect_users_history (c : Call) (db db' : Db) :
  effect c db db' ->
  exists old new, users db' = old ++ new /\ Forall2 upgraded (users db) old.
Proof.
  intros [Hu _ | new _ Hu _ _ _ _ _ | su u _ _ _ Hfind Hu _
         | su m _ _ _ _ _ _ Hu | su _ _ _ Hu].
  - exists (users db), []. rewrite app_nil_r. split; [done |].
    apply Forall2_upgraded_refl.
  - exists (users db), [new]. split; [done | apply Forall2_upgraded_refl].
  - exists (users db'), []. rewrite app_nil_r. split; [done |].
    rewrite Hu. by apply replace_first_upgraded.
  - exists (users db), []. rewrite app_nil_r. split; [done |].
    apply Forall2_upgraded_refl.
  - exists (users db), []. rewrite app_nil_r. split; [done |].
    apply Forall2_upgraded_refl.
Qed.

(** X1.  Whatever calls are served, in whatever order and whatever the
    store's failures, no user record is ever deleted, moved or rewritten:
    the collection of users is the old one, record by record, with at most
    [membership_status] raised to true, followed by the users that signed
    up since. *)
Theorem run_all_users_history
    (bcrypt_hash : string -> nat -> string -> string)
    (secret : option string) (cs : list Call) (db : Db) :
  exists old new,
    users (run_all bcrypt_hash secret cs db) = old ++ new /\
    Forall2 upgraded (users db) old.
Proof.
  revert db. induction cs as [|c cs IH]; intros db.
  - exists (users db), []. rewrite app_nil_r. split; [done |].
    apply Forall2_upgraded_refl.
  - rewrite run_all_cons.
    destruct (effect_users_history c db _ (run_effect bcrypt_hash secret c db))
      as (old0 & new0 & Hstep & Hold0).
    destruct (IH (snd (run bcrypt_hash secret c db)))
      as (old1 & new1 & Hrest & Hold1).
    rewrite Hstep in Hold1.
    apply Forall2_app_inv_l in Hold1 as (o & n & Ho & _ & ->).
    exists o, (n ++ new1). split.
    + by rewrite Hrest, app_assoc.
    + eapply Forall2_trans; [| exact Hold0 | exact Ho].
      apply upgraded_trans.
Qed.

Lemma effect_mounted_prefix (c : Call) (db db' : Db) :
  Router.mounted (controller_of c) = true ->
  effect c db db' ->
  users db `prefix_of` users db' /\ messages db `prefix_of` messages db'.
Proof.
  intros Hm [Hu Hms | new _ Hu Hms _ _ _ _ | su u Hc _ _ _ _ _
            | su m _ _ _ _ _ Hms Hu | su Hc _ _ _].
  - by rewrite Hu, Hms.
  - rewrite Hu, Hms. split; [by apply prefix_app_r | done].
  - rewrite Hc in Hm. discriminate.
  - rewrite Hu, Hms. split; [done | by apply prefix_app_r].
  - rewrite Hc in Hm. discriminate.
Qed.

(** X2.  The router mounts neither the membership handlers nor the delete
    handlers.  So through the mounted routes alone, whatever the requests
    and the identities they carry, both collections only grow at their end:
    no stored user is ever changed (in particular none becomes a member)
    and no stored message is ever removed or changed. *)
Theorem mounted_calls_only_append
    (bcrypt_hash : string -> nat -> string -> string)
    (secret : option string) (cs : list Call) (db : Db) :
  Forall (fun c => Router.mounted (controller_of c) = true) cs ->
  users db `prefix_of` users (run_all bcrypt_hash secret cs db) /\
  messages db `prefix_of` messages (run_all bcrypt_hash secret cs db).
Proof.
  intros Hcs. revert db.
  induction Hcs as [|c cs Hc _ IH]; intros db; [done |].
  rewrite run_all_cons.
  destruct (effect_mounted_prefix c db _ Hc
              (run_effect bcrypt_hash secret c db)) as [Hu Hm].
  destruct (IH (snd (run bcrypt_hash secret c db))) as [Hu' Hm'].
  split; etrans; eauto.
Qed.

Lemma mounted_calls_only_append_witness :
  Forall (fun c => Router.mounted (controller_of c) = true)
         [Call_signup_post "salt" new_user_signup;
          Call_message_create_post hello_post; Call_logout secret_post] /\
  users sample_db `prefix_of`
    users (run_all sample_hash (Some "s3cret")
             [Call_signup_post "salt" new_user_signup;
              Call_message_create_post hello_post; Call_logout secret_post]
             sample_db).
Proof.
  assert (H : Forall (fun c => Router.mounted (controller_of c) = true)
                [Call_signup_post "salt" new_user_signup;
                 Call_message_create_post hello_post;
                 Call_logout secret_post])
    by (repeat constructor).
  split; [exact H |].
  apply (mounted_calls_only_append sample_hash (Some "s3cret") _ sample_db H).
Defined.

(** *** Invariants of the store *)

Lemma new_ObjectId_not_in (ids : list ObjectId) : new_ObjectId ids ∉ ids.
Proof.
  intros H. apply new_ObjectId_above in H. lia.
Qed.

Lemma fmap_replace_first {A B : Type} (f : A -> B) (p : A -> bool)
    (l : list A) (x y : A) :
  List.find p l = Some x -> f y = f x ->
  f <$> Store.replace_first p y l = f <$> l.
Proof.
  intros (l1 & l2 & -> & Hx & Hl1)%find_split Hf.
  rewrite (replace_first_split _ _ _ _ _ Hl1 Hx).
  rewrite !fmap_app, !fmap_cons. by rewrite Hf.
Qed.






Lemma find_username_not_in (name : string) (us : list User.doc) :
  List.find (Store.has_username name) us = None ->
  name ∉ (User.username <$> us).
Proof.
  intros Hfind Hin. apply find_none in Hfind. rewrite Forall_forall in Hfind.
  apply list_elem_of_fmap in Hin as (u & -> & Hu).
  specialize (Hfind u Hu). unfold Store.has_username in Hfind.
  by rewrite String.eqb_refl in Hfind.
Qed.

Lemma effect_usernames (c : Call) (db db' : Db) :
  effect c db db' ->
  NoDup (User.username <$> users db) -> NoDup (User.username <$> users db').
Proof.
  intros [Hu _ | new _ Hu _ _ Hfind _ _ | su u _ _ _ Hfind Hu _
         | su m _ _ _ _ _ _ Hu | su _ _ _ Hu] Hus; rewrite Hu; try done.
  - rewrite fmap_app. apply NoDup_app. split; [done |]. split.
    + intros i Hi Hin. apply list_elem_of_singleton in Hin. simpl in Hin.
      subst i. by apply find_username_not_in in Hfind.
    + apply NoDup_singleton.
  - by rewrite (fmap_replace_first User.username _ _ u).
Qed.

(** X4.  Usernames stay unique: when no two stored users share a username,
    the same holds after any calls, served in any order, whatever the
    store's failures.  (The calls are served one after the other: nothing is
    said of two signups that interleave.) *)
Theorem run_all_usernames_unique
    (bcrypt_hash : string -> nat -> string -> string)
    (secret : option string) (cs : list Call) (db : Db) :
  NoDup (User.username <$> users db) ->
  NoDup (User.username <$> users (run_all bcrypt_hash secret cs db)).
Proof.
  revert db. induction cs as [|c cs IH]; intros db Hu; [done |].
  rewrite run_all_cons. apply IH.
  by apply (effect_usernames c db _ (run_effect bcrypt_hash secret c db)).
Qed.

Lemma run_all_usernames_unique_witness :
  NoDup (User.username <$> users sample_db) /\
  NoDup (User.username <$>
           users (run_all sample_hash (Some "s3cret") sample_calls sample_db)).
Proof.
  assert (Hu : NoDup (User.username <$> users sample_db))
    by (apply NoDup_singleton).
  split; [exact Hu |].
  apply (run_all_usernames_unique sample_hash (Some "s3cret") sample_calls
           sample_db Hu).
Defined.

Lemma Forall_replace_first {A : Type} (P : A -> Prop) (p : A -> bool)
    (l : list A) (x : A) :
  Forall P l -> P x -> Forall P (Store.replace_first p x l).
Proof.
  intros Hl Hx. induction Hl as [|y l Hy Hl IH]; simpl; [constructor |].
  destruct (p y); by constructor.
Qed.

Lemma Forall_remove_first {A : Type} (P : A -> Prop) (p : A -> bool)
    (l : list A) :
  Forall P l -> Forall P (Store.remove_first p l).
Proof.
  induction 1 as [|y l Hy Hl IH]; simpl; [constructor |].
  destruct (p y); [done | by constructor].
Qed.

Lemma effect_valid (c : Call) (db db' : Db) :
  effect c db db' ->
  Forall (fun u => valid_user u = true) (users db) ->
  Forall (fun m => valid_message m = true) (messages db) ->
  Forall (fun u => valid_user u = true) (users db') /\
  Forall (fun m => valid_message m = true) (messages db').
Proof.
  intros [Hu Hms | new _ Hu Hms _ _ Hnew _ | su u _ _ _ Hfind Hu Hms
         | su m _ _ _ _ Hnew Hms Hu | su _ _ Hms Hu] Hus Hm;
    rewrite Hu, Hms; split; try done.
  - apply Forall_app. split; [done | by constructor].
  - apply Forall_replace_first; [done |].
    apply find_split in Hfind as (l1 & l2 & Hl & _).
    rewrite Hl in Hus. apply Forall_app in Hus as [_ Hus].
    by apply Forall_cons in Hus as [Hus _].
  - apply Forall_app. split; [done | by constructor].
  - by apply Forall_remove_first.
Qed.

(** X5.  The store keeps the shape of its data.  When every stored user has
    an alphabetic first and last name and a non-empty alphanumeric username,
    and every stored message a non-empty title and text without markup
    characters, the same holds after any calls: the signup and
    message-creation handlers store nothing their chains have not checked
    and sanitized. *)
Theorem run_all_valid
    (bcrypt_hash : string -> nat -> string -> string)
    (secret : option string) (cs : list Call) (db : Db) :
  Forall (fun u => valid_user u = true) (users db) ->
  Forall (fun m => valid_message m = true) (messages db) ->
  Forall (fun u => valid_user u = true)
         (users (run_all bcrypt_hash secret cs db)) /\
  Forall (fun m => valid_message m = true)
         (messages (run_all bcrypt_hash secret cs db)).
Proof.
  revert db. induction cs as [|c cs IH]; intros db Hu Hm; [done |].
  rewrite run_all_cons.
  destruct (effect_valid c db _ (run_effect bcrypt_hash secret c db) Hu Hm).
  by apply IH.
Qed.

Lemma run_all_valid_witness :
  Forall (fun u => valid_user u = true) (users sample_db) /\
  Forall (fun m => valid_message m = true) (messages sample_db) /\
  Forall (fun m => valid_message m = true)
         (messages (run_all sample_hash (Some "s3cret")
                      [Call_message_create_post hello_post] sample_db)).
Proof.
  assert (Hu : Forall (fun u => valid_user u = true) (users sample_db))
    by (repeat constructor).
  assert (Hm : Forall (fun m => valid_message m = true) (messages sample_db))
    by (repeat constructor).
  split; [exact Hu |]. split; [exact Hm |].
  apply (run_all_valid sample_hash (Some "s3cret")
           [Call_message_create_post hello_post] sample_db Hu Hm).
Defined.

(** *** What one call never does *)

(** X6.  Which controller writes where: only [signup_post] and
    [membership_post] ever change the collection of users, only
    [message_create_post] and [message_delete_post] the collection of
    messages.  Every other controller, and each of these on the other
    collection, leaves it as it was, whatever the request and whatever the
    store's failures. *)
Theorem run_frame
    (bcrypt_hash : string -> nat -> string -> string)
    (secret : option string) (c : Call) (db : Db) :
  (controller_of c <> Router.signup_post ->
   controller_of c <> Router.membership_post ->
   users (snd (run bcrypt_hash secret c db)) = users db) /\
  (controller_of c <> Router.message_create_post ->
   controller_of c <> Router.message_delete_post ->
   messages (snd (run bcrypt_hash secret c db)) = messages db).
Proof.
  destruct (run_effect bcrypt_hash secret c db)
    as [Hu Hms | new Hc Hu Hms _ _ _ _ | su u Hc _ _ _ Hu Hms
       | su m Hc _ _ _ _ Hms Hu | su Hc _ Hms Hu];
    split; intros H1 H2; congruence.
Qed.

Lemma run_frame_witness :
  controller_of (Call_index anonymous_post) <> Router.signup_post /\
  controller_of (Call_index anonymous_post) <> Router.membership_post /\
  users (snd (run sample_hash (Some "s3cret") (Call_index anonymous_post)
                sample_db)) = users sample_db.
Proof.
  assert (H1 : controller_of (Call_index anonymous_post) <> Router.signup_post)
    by discriminate.
  assert (H2 : controller_of (Call_index anonymous_post)
               <> Router.membership_post) by discriminate.
  split; [exact H1 |]. split; [exact H2 |].
  exact (proj1 (run_frame sample_hash (Some "s3cret")
                  (Call_index anonymous_post) sample_db) H1 H2).
Defined.

(** X7.  A caller without a session identity cannot change what is stored,
    except by signing up: whatever it submits to any other controller
    (the secret of the membership form included), and whatever the store's
    failures, both collections are left as they were. *)
Theorem run_anonymous
    (bcrypt_hash : string -> nat -> string -> string)
    (secret : option string) (c : Call) (db : Db) :
  user (request_of c) = None ->
  controller_of c <> Router.signup_post ->
  users (snd (run bcrypt_hash secret c db)) = users db /\
  messages (snd (run bcrypt_hash secret c db)) = messages db.
Proof.
  intros Hnone Hc.
  destruct (run_effect bcrypt_hash secret c db)
    as [Hu Hms | new Hc' Hu Hms _ _ _ _ | su u _ Hsome _ _ Hu Hms
       | su m _ Hsome _ _ _ Hms Hu | su _ Hsome Hms Hu];
    try done; congruence.
Qed.

Lemma run_anonymous_witness :
  user (request_of (Call_membership_post anonymous_secret_post)) = None /\
  controller_of (Call_membership_post anonymous_secret_post)
  <> Router.signup_post /\
  users (snd (run sample_hash (Some "s3cret")
                (Call_membership_post anonymous_secret_post) sample_db))
  = users sample_db.
Proof.
  assert (Hc : controller_of (Call_membership_post anonymous_secret_post)
               <> Router.signup_post) by discriminate.
  split; [reflexivity |]. split; [exact Hc |].
  exact (proj1 (run_anonymous sample_hash (Some "s3cret")
                  (Call_membership_post anonymous_secret_post) sample_db
                  eq_refl Hc)).
Defined.

(** X8.  Every controller answers a request exactly once, with one
    exception: [message_create_post] without a session identity answers
    twice, with the redirect to the login page and then with what the rest
    of the handler issues. *)
Theorem run_replies_count
    (bcrypt_hash : string -> nat -> string -> string)
    (secret : option string) (c : Call) (db : Db) :
  length (fst (run bcrypt_hash secret c db)) =
    match c with
    | Call_message_create_post req =>
        match user req with None => 2 | Some _ => 1 end
    | _ => 1
    end.
Proof.
  destruct c as [req | req | salt req | req | req | req | req | req | req
                | req | req]; simpl; try reflexivity.
  - unfold index, Store.Message_find, Store.call.
    by destruct (head (faults db)) as [[e |] |].
  - unfold signup_post. rewrite signup_chains_eq.
    destruct (Chain.isEmpty _); simpl; [| done].
    unfold Store.User_findOne, Store.call.
    destruct (head (faults db)) as [[e |] |]; simpl; try done.
    all: destruct (List.find _ (users db)); simpl; try done.
    all: unfold Store.User_save, Store.call; simpl.
    all: by destruct (head (tail (faults db))) as [[e |] |].
  - unfold message_create_post, message_create_rest.
    rewrite message_create_chains_eq.
    destruct (Chain.isEmpty _); simpl; [| by destruct (user req)].
    unfold message_create_save.
    destruct (user req); simpl; [| done].
    unfold Store.Message_save, Store.call.
    by destruct (head (faults db)) as [[e |] |].
  - unfold membership_post. rewrite membership_chains_eq.
    destruct (Chain.isEmpty _); simpl; [| done].
    unfold Store.User_findById, Store.call.
    destruct (head (faults db)) as [[e |] |]; simpl; try done.
    all: destruct (user req) as [su |]; simpl; try done.
    all: destruct (List.find _ (users db)); simpl; try done.
    all: unfold Store.User_save, Store.call; simpl.
    all: by destruct (head (tail (faults db))) as [[e |] |].
  - unfold message_delete_get. destruct (user req); [| done].
    unfold Store.Message_findById, Store.call.
    destruct (head (faults db)) as [[e |] |]; simpl; try done.
    all: by destruct (List.find _ (messages db)).
  - unfold message_delete_post. destruct (user req); [| done].
    unfold Store.Message_findByIdAndRemove, Store.call.
    by destruct (head (faults db)) as [[e |] |].
Qed.

Lemma call_fault {A : Type} (op : StoreOp) (run : Db -> A * Db) (db : Db)
    (e : Error) :
  head (faults db) = Some (Some e) ->
  Store.call op run db = (inl e, Store.logged op db).
Proof. unfold Store.call. by intros ->. Qed.

(** X9.  A store failure is never swallowed and never leaves a write
    behind.  When the next store call is bound to fail with [e], a
    controller either answers without calling the store at all, or hands
    exactly [e] to [next] as its only reply; in both cases the collections
    are left as they were. *)
Theorem run_store_failure
    (bcrypt_hash : string -> nat -> string -> string)
    (secret : option string) (c : Call) (db : Db) (e : Error) :
  head (faults db) = Some (Some e) ->
  users (snd (run bcrypt_hash secret c db)) = users db /\
  messages (snd (run bcrypt_hash secret c db)) = messages db /\
  (log (snd (run bcrypt_hash secret c db)) = log db \/
   fst (run bcrypt_hash secret c db) = [Next e]).
Proof.
  intros He.
  destruct c as [req | req | salt req | req | req | req | req | req | req
                | req | req]; simpl; try (by repeat split; left).
  - unfold index, Store.Message_find. rewrite (call_fault _ _ _ e He).
    repeat split. by right.
  - unfold signup_post. rewrite signup_chains_eq.
    destruct (Chain.isEmpty _); simpl; [| by repeat split; left].
    unfold Store.User_findOne. rewrite (call_fault _ _ _ e He).
    repeat split. by right.
  - unfold message_create_post, message_create_rest.
    rewrite message_create_chains_eq.
    destruct (Chain.isEmpty _); simpl; [| by repeat split; left].
    unfold message_create_save.
    destruct (user req); simpl; [| by repeat split; left].
    unfold Store.Message_save. rewrite (call_fault _ _ _ e He).
    repeat split. by right.
  - unfold membership_post. rewrite membership_chains_eq.
    destruct (Chain.isEmpty _); simpl; [| by repeat split; left].
    unfold Store.User_findById. rewrite (call_fault _ _ _ e He).
    repeat split. by right.
  - unfold message_delete_get.
    destruct (user req); [| by repeat split; left].
    unfold Store.Message_findById. rewrite (call_fault _ _ _ e He).
    repeat split. by right.
  - unfold message_delete_post.
    destruct (user req); [| by repeat split; left].
    unfold Store.Message_findByIdAndRemove. rewrite (call_fault _ _ _ e He).
    repeat split. by right.
Qed.

Lemma run_store_failure_witness :
  head (faults (mkDb [bob] [hello] [Some (mkError "MongoError" "down" None)] []))
  = Some (Some (mkError "MongoError" "down" None)) /\
  messages (snd (run sample_hash (Some "s3cret")
                   (Call_message_delete_post hello_delete)
                   (mkDb [bob] [hello]
                         [Some (mkError "MongoError" "down" None)] [])))
  = [hello].
Proof.
  split; [reflexivity |].
  destruct (run_store_failure sample_hash (Some "s3cret")
              (Call_message_delete_post hello_delete)
              (mkDb [bob] [hello] [Some (mkError "MongoError" "down" None)] [])
              (mkError "MongoError" "down" None) eq_refl) as (_ & Hm & _).
  exact Hm.
Defined.

(** *** How calls compose *)

Lemma calm_next (n : nat) (db db' : Db) :
  faults db' = tail (faults db) -> Store.calm (S n) db -> Store.calm n db'.
Proof.
  unfold Store.calm. intros ->. destruct (faults db) as [|f fs]; simpl.
  - intros _. rewrite take_nil. constructor.
  - by intros [_ H]%Forall_cons.
Qed.

Lemma calm_next2 (n : nat) (db db' : Db) :
  faults db' = tail (tail (faults db)) ->
  Store.calm (S (S n)) db -> Store.calm n db'.
Proof.
  intros Hf Hcalm.
  apply (calm_next n (mkDb [] [] (tail (faults db)) []) db' Hf).
  by apply (calm_next (S n) db).
Qed.

Lemma calm_S (n : nat) (db : Db) : Store.calm (S n) db -> Store.calm n db.
Proof.
  unfold Store.calm. revert n. induction (faults db) as [|f fs IH]; intros n.
  - intros _. rewrite take_nil. constructor.
  - destruct n as [|n]; simpl; [constructor |].
    intros [Hf H]%Forall_cons. constructor; [done | by apply IH].
Qed.

(** The run of [signup_post] that persists a user. *)
Lemma signup_post_run
    (bcrypt_hash : string -> nat -> string -> string)
    (salt : string) (req : Request) (db : Db) :
  signup_errors (body req) = [] ->
  List.find (Store.has_username (trimmed (body req) "username")) (users db)
  = None ->
  Store.calm 2 db ->
  signup_post bcrypt_hash salt req db =
    ([Redirect "/login"],
     mkDb (users db ++
             [User.mk (new_ObjectId (User._id <$> users db))
                      (trimmed (body req) "firstname")
                      (trimmed (body req) "lastname")
                      (trimmed (body req) "username")
                      (bcrypt_hash (trimmed (body req) "password") 10 salt)
                      false])
          (messages db) (tail (tail (faults db)))
          ((log db ++ [Op_User_findOne (trimmed (body req) "username")]) ++
             [Op_User_save (new_ObjectId (User._id <$> users db))])).
Proof.
  intros Hvalid Hfind Hcalm.
  destruct (signup_sanitized_fields (body req)) as (Hf & Hl & Hn & Hp).
  unfold signup_post. rewrite signup_chains_eq, Hvalid. simpl.
  unfold new_User. rewrite Hf, Hl, Hn, Hp. simpl.
  unfold Store.User_findOne. rewrite (call_calm _ _ db 1 Hcalm). simpl.
  rewrite Hfind.
  unfold Store.User_save.
  rewrite (call_calm _ _ _ 0 (calm_logged _ db 1 Hcalm)). simpl.
  by rewrite new_user_id_fresh.
Qed.

(** The run of [message_create_post] that persists a message. *)
Lemma message_create_post_run (req : Request) (db : Db) (u : User.doc) :
  user req = Some u ->
  message_errors (body req) = [] ->
  Store.calm 1 db ->
  message_create_post req db =
    ([Redirect "/"],
     mkDb (users db)
          (messages db ++
             [Message.mk (new_ObjectId (Message._id <$> messages db))
                         (User._id u)
                         (Validator.escape (trimmed (body req) "title"))
                         (Validator.escape (trimmed (body req) "message"))])
          (tail (faults db))
          (log db ++ [Op_Message_save
                        (new_ObjectId (Message._id <$> messages db))])).
Proof.
  intros Hu Hvalid Hcalm.
  destruct (message_sanitized_fields (body req)) as [Ht Hm].
  unfold message_create_post, message_create_rest, message_create_save.
  rewrite message_create_chains_eq, Hvalid, Hu, Ht, Hm. simpl.
  unfold Store.Message_save. rewrite (call_calm _ _ db 0 Hcalm). simpl.
  by rewrite new_message_id_fresh.
Qed.

Lemma find_append_new {A : Type} (p : A -> bool) (l : list A) (x : A) :
  List.find p l = None -> p x = true -> List.find p (l ++ [x]) = Some x.
Proof.
  intros Hl Hx. apply find_app_split; [by apply find_none | done].
Qed.

Lemma remove_first_append_new {A : Type} (p : A -> bool) (l : list A) (x : A) :
  Forall (fun y => p y = false) l -> p x = true ->
  Store.remove_first p (l ++ [x]) = l.
Proof.
  intros Hl Hx. rewrite (remove_first_split _ _ _ _ Hl Hx).
  apply app_nil_r.
Qed.

Lemma new_message_id_unused (db : Db) :
  Forall (fun m => Store.has_message_id
                     (new_ObjectId (Message._id <$> messages db)) m = false)
         (messages db).
Proof.
  apply Forall_forall. intros m Hm. apply has_message_id_false.
  intros Hid. apply (new_ObjectId_not_in (Message._id <$> messages db)).
  rewrite <- Hid. by apply list_elem_of_fmap_2.
Qed.

(** X10.  What is posted shows up on the home page.  After a valid message
    submission by a logged-in user (the store calls going through), the home
    page lists the messages stored before, in their order and with their
    authors resolved, and then the new message: authored by the caller, with
    its title and text trimmed and escaped, and resolved to the caller's
    stored record. *)
Theorem message_create_then_index
    (req req' : Request) (db : Db) (u : User.doc) :
  user req = Some u ->
  snd (message_create_chains (body req)) = [] ->
  Store.calm 2 db ->
  exists db1 db2 id,
    message_create_post req db = ([Redirect "/"], db1) /\
    index req' db1 =
      ([Render "index"
          [("title", VString "Members Only");
           ("user", VUser (user req'));
           ("messages",
            VMessages
              (map (Store.populate db) (messages db) ++
               [(Message.mk id (User._id u)
                   (Validator.escape (Validator.trim (field (body req) "title")))
                   (Validator.escape (Validator.trim (field (body req) "message"))),
                 List.find (Store.has_user_id (User._id u)) (users db))]))]],
       db2).
Proof.
  intros Hu Hvalid Hcalm. rewrite message_create_chains_errors in Hvalid.
  eexists _, _, _. split.
  - apply message_create_post_run; [done | done | by apply calm_S].
  - unfold index, Store.Message_find.
    erewrite (call_calm _ _ _ 0); [| by eapply calm_next; [| exact Hcalm]].
    simpl. rewrite map_app. reflexivity.
Qed.

Lemma message_create_then_index_witness :
  user hello_post = Some bob /\
  snd (message_create_chains (body hello_post)) = [] /\
  Store.calm 2 sample_db /\
  exists db1 db2 id,
    message_create_post hello_post sample_db = ([Redirect "/"], db1) /\
    index anonymous_post db1 =
      ([Render "index"
          [("title", VString "Members Only");
           ("user", VUser None);
           ("messages",
            VMessages
              [(hello, Some bob);
               (Message.mk id 1%N "Hi" "&lt;b&gt;hello&lt;&#x2F;b&gt;",
                Some bob)])]], db2).
Proof.
  split; [reflexivity |]. split; [reflexivity |].
  split; [apply calm_nil; reflexivity |].
  destruct (message_create_then_index hello_post anonymous_post sample_db bob
              eq_refl eq_refl (calm_nil 2 sample_db eq_refl))
    as (db1 & db2 & id & Hpost & Hindex).
  exists db1, db2, id. split; [exact Hpost | exact Hindex].
Defined.

(** X11.  A username can be taken once.  After a signup that persisted a
    user, any later valid submission under the same username, once trimmed,
    is turned down with the error on the username field and persists
    nothing (the store calls going through). *)
Theorem signup_post_twice
    (bcrypt_hash : string -> nat -> string -> string)
    (salt salt' : string) (req req' : Request) (db : Db) :
  snd (signup_chains (body req)) = [] ->
  (forall u, u ∈ users db ->
             User.username u <> Validator.trim (field (body req) "username")) ->
  snd (signup_chains (body req')) = [] ->
  Validator.trim (field (body req') "username")
  = Validator.trim (field (body req) "username") ->
  Store.calm 3 db ->
  exists db1 db2,
    signup_post bcrypt_hash salt req db = ([Redirect "/login"], db1) /\
    signup_post bcrypt_hash salt' req' db1 =
      ([Render "signup_form"
          [("title", VString "Sign Up");
           ("user", VBody (signup_sanitized (body req')));
           ("errors", VErrors [mkValidationError
                                 None "Username already in use." "username"
                                 None])]], db2) /\
    users db2 = users db1.
Proof.
  intros Hvalid Hfree Hvalid' Hsame Hcalm.
  rewrite signup_chains_errors in Hvalid, Hvalid'.
  pose proof (find_username_none (trimmed (body req) "username") _ Hfree)
    as Hfind.
  eexists _, _. split; [| split].
  - apply signup_post_run; [done | done | by apply calm_S].
  - destruct (signup_sanitized_fields (body req')) as (_ & _ & Hn & _).
    unfold signup_post. rewrite signup_chains_eq, Hvalid'. simpl.
    unfold new_User. rewrite Hn. simpl.
    unfold Store.User_findOne.
    erewrite (call_calm _ _ _ 0);
      [| by eapply calm_next2; [| exact Hcalm]].
    simpl. fold (trimmed (body req') "username") in Hsame.
    rewrite Hsame, (find_append_new _ _ _ Hfind); [reflexivity |].
    unfold Store.has_username. simpl. apply String.eqb_refl.
  - reflexivity.
Qed.

Lemma signup_post_twice_witness :
  snd (signup_chains (body new_user_signup)) = [] /\
  Store.calm 3 sample_db /\
  exists db1,
    signup_post sample_hash "salt" new_user_signup sample_db
    = ([Redirect "/login"], db1) /\
    fst (signup_post sample_hash "pepper" new_user_signup db1) =
      [Render "signup_form"
         [("title", VString "Sign Up");
          ("user", VBody (signup_sanitized (body new_user_signup)));
          ("errors", VErrors [mkValidationError
                                None "Username already in use." "username"
                                None])]].
Proof.
  split; [reflexivity |]. split; [apply calm_nil; reflexivity |].
  assert (Hfree : forall u, u ∈ users sample_db ->
            User.username u
            <> Validator.trim (field (body new_user_signup) "username")).
  { intros u Hu. apply list_elem_of_singleton in Hu. subst u.
    intros H. vm_compute in H. discriminate. }
  destruct (signup_post_twice sample_hash "salt" "pepper" new_user_signup
              new_user_signup sample_db eq_refl Hfree eq_refl eq_refl
              (calm_nil 3 sample_db eq_refl))
    as (db1 & db2 & Hfirst & Hsecond & _).
  exists db1. split; [exact Hfirst |]. by rewrite Hsecond.
Defined.

(** X12.  Anyone who is logged in can take a message back, whoever wrote it.
    After a valid message submission by [u], a delete submission naming the
    id of the new message, made under any session identity [v], removes that
    message and nothing else: the collection of messages is what it was
    before the message was posted (the store calls going through). *)
Theorem message_create_then_delete
    (req req' : Request) (db : Db) (u v : User.doc) :
  user req = Some u ->
  snd (message_create_chains (body req)) = [] ->
  user req' = Some v ->
  message_id req' = new_ObjectId (Message._id <$> messages db) ->
  Store.calm 2 db ->
  exists db1 db2,
    message_create_post req db = ([Redirect "/"], db1) /\
    message_delete_post req' db1 = ([Redirect "/"], db2) /\
    messages db2 = messages db /\
    users db2 = users db.
Proof.
  intros Hu Hvalid Hv Hid Hcalm. rewrite message_create_chains_errors in Hvalid.
  eexists _, _. split; [| split].
  - apply message_create_post_run; [done | done | by apply calm_S].
  - unfold message_delete_post. rewrite Hv.
    unfold Store.Message_findByIdAndRemove.
    erewrite (call_calm _ _ _ 0); [| by eapply calm_next; [| exact Hcalm]].
    reflexivity.
  - simpl. rewrite Hid. split; [| done].
    apply remove_first_append_new; [apply new_message_id_unused |].
    unfold Store.has_message_id. simpl. apply N.eqb_refl.
Qed.

Lemma message_create_then_delete_witness :
  user hello_post = Some bob /\
  snd (message_create_chains (body hello_post)) = [] /\
  user (delete_request (Some alice) 8%N) = Some alice /\
  message_id (delete_request (Some alice) 8%N)
  = new_ObjectId (Message._id <$> messages sample_db) /\
  Store.calm 2 sample_db /\
  exists db1 db2,
    message_create_post hello_post sample_db = ([Redirect "/"], db1) /\
    message_delete_post (delete_request (Some alice) 8%N) db1
    = ([Redirect "/"], db2) /\
    messages db2 = [hello].
Proof.
  split; [reflexivity |]. split; [reflexivity |]. split; [reflexivity |].
  split; [reflexivity |]. split; [apply calm_nil; reflexivity |].
  destruct (message_create_then_delete hello_post
              (delete_request (Some alice) 8%N) sample_db bob alice
              eq_refl eq_refl eq_refl eq_refl (calm_nil 2 sample_db eq_refl))
    as (db1 & db2 & Hpost & Hdelete & Hmessages & _).
  exists db1, db2. split; [exact Hpost |]. split; [exact Hdelete |].
  exact Hmessages.
Defined.

Lemma find_remove_first (id : ObjectId) (ms : list Message.doc) :
  NoDup (Message._id <$> ms) ->
  List.find (Store.has_message_id id)
            (Store.remove_first (Store.has_message_id id) ms) = None.
Proof.
  induction ms as [|m ms IH]; simpl; [done |].
  intros [Hm Hms]%NoDup_cons.
  destruct (Store.has_message_id id m) eqn:Hid.
  - apply find_none, Forall_forall. intros x Hx.
    apply has_message_id_false. intros Hxid. apply Hm.
    unfold Store.has_message_id in Hid. apply N.eqb_eq in Hid.
    rewrite Hid, <- Hxid. by apply list_elem_of_fmap_2.
  - simpl. rewrite Hid. by apply IH.
Qed.

(** X13.  A deleted message is gone.  With ids unique in the store, after a
    delete submission by a logged-in user the delete page of the same id
    answers with the error "Message not found", status 404, and a second
    delete submission of that id changes nothing (the store calls going
    through). *)
Theorem message_delete_then_gone
    (req req' : Request) (db : Db) (u v : User.doc) :
  NoDup (Message._id <$> messages db) ->
  user req = Some u ->
  user req' = Some v ->
  params_id req' = message_id req ->
  message_id req' = message_id req ->
  Store.calm 2 db ->
  exists db1 db2 db3,
    message_delete_post req db = ([Redirect "/"], db1) /\
    message_delete_get req' db1 =
      ([Next (mkError "Error" "Message not found" (Some 404))], db2) /\
    message_delete_post req' db1 = ([Redirect "/"], db3) /\
    messages db3 = messages db1.
Proof.
  intros Hnodup Hu Hv Hparams Hid Hcalm.
  assert (Hpost : message_delete_post req db =
            ([Redirect "/"],
             Store.set_messages
               (Store.remove_first (Store.has_message_id (message_id req))
                  (messages db))
               (Store.logged (Op_Message_findByIdAndRemove (message_id req)) db))).
  { unfold message_delete_post. rewrite Hu.
    unfold Store.Message_findByIdAndRemove.
    by rewrite (call_calm _ _ db 1 Hcalm). }
  pose proof (find_remove_first (message_id req) _ Hnodup) as Hgone.
  eexists _, _, _. split; [exact Hpost |]. split; [| split].
  - unfold message_delete_get. rewrite Hv, Hparams.
    unfold Store.Message_findById.
    erewrite (call_calm _ _ _ 0); [| by eapply calm_next; [| exact Hcalm]].
    simpl. rewrite Hgone. reflexivity.
  - unfold message_delete_post. rewrite Hv, Hid.
    unfold Store.Message_findByIdAndRemove.
    erewrite (call_calm _ _ _ 0); [| by eapply calm_next; [| exact Hcalm]].
    reflexivity.
  - simpl. apply remove_first_none. by apply find_none.
Qed.

Lemma message_delete_then_gone_witness :
  NoDup (Message._id <$> messages sample_db) /\
  user hello_delete = Some bob /\
  Store.calm 2 sample_db /\
  exists db1 db2,
    message_delete_post hello_delete sample_db = ([Redirect "/"], db1) /\
    message_delete_get hello_delete db1 =
      ([Next (mkError "Error" "Message not found" (Some 404))], db2).
Proof.
  assert (Hnodup : NoDup (Message._id <$> messages sample_db))
    by (apply NoDup_singleton).
  split; [exact Hnodup |]. split; [reflexivity |].
  split; [apply calm_nil; reflexivity |].
  destruct (message_delete_then_gone hello_delete hello_delete sample_db bob
              bob Hnodup eq_refl eq_refl eq_refl eq_refl
              (calm_nil 2 sample_db eq_refl))
    as (db1 & db2 & db3 & Hpost & Hget & _).
  exists db1, db2. split; [exact Hpost | exact Hget].
Defined.

Lemma replace_first_same {A : Type} (p : A -> bool) (l : list A) (x : A) :
  List.find p l = Some x -> Store.replace_first p x l = l.
Proof.
  intros (l1 & l2 & -> & Hx & Hl1)%find_split.
  by apply replace_first_split.
Qed.

Lemma find_replace_first {A : Type} (p : A -> bool) (l : list A) (x y : A) :
  List.find p l = Some x -> p y = true ->
  List.find p (Store.replace_first p y l) = Some y.
Proof.
  intros (l1 & l2 & -> & Hx & Hl1)%find_split Hy.
  rewrite (replace_first_split _ _ _ _ _ Hl1 Hx).
  by apply find_app_split.
Qed.

(** X14.  Membership is unlocked once.  After an unlock that succeeded (it
    answered with the redirect to home), whatever the same session identity
    submits to the membership form again, and whatever the store's failures,
    the collection of users stays as the first unlock left it. *)
Theorem membership_post_again
    (secret : option string) (req req' : Request) (db : Db) :
  fst (membership_post secret req db) = [Redirect "/"] ->
  user req' = user req ->
  users (snd (membership_post secret req'
                (snd (membership_post secret req db))))
  = users (snd (membership_post secret req db)).
Proof.
  intros (su & u & Hu & Hfind & Husers & _)%membership_post_redirect_inv Hsame.
  set (db1 := snd (membership_post secret req db)) in *.
  assert (Hfind1 : List.find (Store.has_user_id (User._id su)) (users db1)
                   = Some (User.set_membership_status true u)).
  { rewrite Husers. apply (find_replace_first _ _ u); [done |].
    apply find_split in Hfind as (_ & _ & _ & Hp & _). exact Hp. }
  destruct (membership_post_effect secret req' db1)
    as [Hu' _ | new Hc _ _ _ _ _ _ | su' u' _ Hsu' Hid' Hfind' Hu' _
       | su' m Hc _ _ _ _ _ _ | su' Hc _ _ _]; try discriminate; [done |].
  simpl in Hsu'. rewrite Hsame, Hu in Hsu'. injection Hsu' as <-.
  rewrite Hid' in Hfind', Hu'. rewrite Hfind1 in Hfind'.
  injection Hfind' as <-. rewrite Hu'.
  by apply replace_first_same.
Qed.

Lemma membership_post_again_witness :
  fst (membership_post (Some "s3cret") secret_post sample_db) = [Redirect "/"] /\
  user padded_secret_post = user secret_post /\
  users (snd (membership_post (Some "s3cret") padded_secret_post
                (snd (membership_post (Some "s3cret") secret_post sample_db))))
  = [User.set_membership_status true bob].
Proof.
  split; [reflexivity |]. split; [reflexivity |].
  rewrite (membership_post_again (Some "s3cret") secret_post padded_secret_post
             sample_db eq_refl eq_refl).
  reflexivity.
Defined.

(** *** The validation chains *)

Lemma field_error_param (b : Body) (name message : string) (ok : bool) :
  (param <$> field_error b name message ok) `sublist_of` [name].
Proof. destruct ok; simpl; [apply sublist_nil_l | done]. Qed.

(** X15.  The errors of a form come in the order of its fields, at most one
    for each: the fields the signup errors are tagged to are picked, in
    order, from first name, last name, username, password and password
    confirmation, and those of the message form from title and message. *)
Theorem chains_errors_in_field_order (b : Body) :
  (param <$> snd (signup_chains b)) `sublist_of` signup_fields /\
  (param <$> snd (message_create_chains b)) `sublist_of` ["title"; "message"].
Proof.
  rewrite signup_chains_errors, message_create_chains_errors.
  unfold signup_errors, message_errors, signup_fields. rewrite !fmap_app.
  split.
  - change ["firstname"; "lastname"; "username"; "password"; "confirmpassword"]
      with (["firstname"] ++ ["lastname"] ++ ["username"] ++ ["password"]
              ++ ["confirmpassword"]).
    repeat apply sublist_app; apply field_error_param.
  - change ["title"; "message"] with (["title"] ++ ["message"]).
    apply sublist_app; apply field_error_param.
Qed.

Lemma elem_of_field_error (b : Body) (name message : string) (ok : bool)
    (e : ValidationError) :
  e ∈ field_error b name message ok <->
  e = mkValidationError (Some (trimmed b name)) message name (Some "body")
  /\ ok = false.
Proof.
  unfold field_error. destruct ok.
  - split; [by intros ?%elem_of_nil | by intros [_ ?]].
  - rewrite list_elem_of_singleton. split; [done | by intros [? _]].
Qed.

(** X16.  The signup chains report an error on a field exactly when the
    value of that field, once trimmed, fails its check: a first or last name
    that is not alphabetic, a username that is not alphanumeric, a password
    shorter than six characters, a confirmation that differs from the
    password.  Each error carries the trimmed value, the message of its
    chain and the name of its field. *)
Theorem signup_chains_error_iff (b : Body) (e : ValidationError) :
  e ∈ snd (signup_chains b) <->
  (e = mkValidationError (Some (Validator.trim (field b "firstname")))
         "Invalid first name" "firstname" (Some "body")
   /\ Validator.isAlpha (Validator.trim (field b "firstname")) = false) \/
  (e = mkValidationError (Some (Validator.trim (field b "lastname")))
         "Invalid last name" "lastname" (Some "body")
   /\ Validator.isAlpha (Validator.trim (field b "lastname")) = false) \/
  (e = mkValidationError (Some (Validator.trim (field b "username")))
         "Invalid username" "username" (Some "body")
   /\ Validator.isAlphanumeric (Validator.trim (field b "username")) = false) \/
  (e = mkValidationError (Some (Validator.trim (field b "password")))
         "Invalid password" "password" (Some "body")
   /\ String.length (Validator.trim (field b "password")) < 6) \/
  (e = mkValidationError (Some (Validator.trim (field b "confirmpassword")))
         "Password confirmation does not match password" "confirmpassword"
         (Some "body")
   /\ Validator.trim (field b "confirmpassword")
      <> Validator.trim (field b "password")).
Proof.
  rewrite signup_chains_errors. unfold signup_errors.
  rewrite !elem_of_app, !elem_of_field_error.
  rewrite bool_decide_eq_false. unfold Validator.isLength.
  rewrite Nat.leb_gt. unfold trimmed. tauto.
Qed.

Lemma trimmed_signup_sanitized (b : Body) (k : string) :
  k ∈ signup_fields -> trimmed (signup_sanitized b) k = trimmed b k.
Proof.
  unfold signup_fields. rewrite !elem_of_cons, elem_of_nil.
  unfold trimmed at 1, signup_sanitized.
  intros [-> | [-> | [-> | [-> | [-> | []]]]]];
    rewrite ?field_insert_ne by done; rewrite field_insert_eq;
    apply trim_idempotent.
Qed.

Lemma lookup_signup_sanitized (b : Body) (k : string) :
  k ∈ signup_fields -> signup_sanitized b !! k = Some (trimmed b k).
Proof.
  unfold signup_fields. rewrite !elem_of_cons, elem_of_nil.
  unfold signup_sanitized.
  intros [-> | [-> | [-> | [-> | [-> | []]]]]];
    rewrite ?lookup_insert_ne by done; apply lookup_insert_eq.
Qed.

(** X17.  The signup form can be sent back as it was echoed.  Running the
    signup chains on the body they return gives that body and the same
    errors again: the sanitized values are stable. *)
Theorem signup_chains_stable (b : Body) :
  signup_chains (fst (signup_chains b)) = signup_chains b.
Proof.
  rewrite !signup_chains_eq. simpl. f_equal.
  - unfold signup_sanitized at 1.
    rewrite !trimmed_signup_sanitized by (unfold signup_fields; set_solver).
    rewrite (insert_id (signup_sanitized b) "firstname")
      by (apply lookup_signup_sanitized; unfold signup_fields; set_solver).
    rewrite (insert_id (signup_sanitized b) "lastname")
      by (apply lookup_signup_sanitized; unfold signup_fields; set_solver).
    rewrite (insert_id (signup_sanitized b) "username")
      by (apply lookup_signup_sanitized; unfold signup_fields; set_solver).
    rewrite (insert_id (signup_sanitized b) "password")
      by (apply lookup_signup_sanitized; unfold signup_fields; set_solver).
    apply insert_id, lookup_signup_sanitized.
    unfold signup_fields; set_solver.
  - unfold signup_errors, field_error.
    by rewrite !trimmed_signup_sanitized by (unfold signup_fields; set_solver).
Qed.

(** *** Logging out *)

(** X18.  Logging out always works and costs nothing: whether or not someone
    is logged in, [logout] answers with the redirect to home and leaves the
    store alone.  The request it leaves carries no identity, so whatever it
    is then handed to, signup apart, changes nothing in the store. *)
Theorem logout_then_anonymous
    (bcrypt_hash : string -> nat -> string -> string)
    (secret : option string) (req : Request) (db db' : Db) (c : Call) :
  request_of c = fst (logout req db) ->
  controller_of c <> Router.signup_post ->
  snd (logout req db) = ([Redirect "/"], db) /\
  users (snd (run bcrypt_hash secret c db')) = users db' /\
  messages (snd (run bcrypt_hash secret c db')) = messages db'.
Proof.
  intros Hreq Hc. split; [reflexivity |].
  assert (Hnone : user (request_of c) = None) by (by rewrite Hreq).
  destruct (run_effect bcrypt_hash secret c db')
    as [Hu Hms | new Hc' Hu Hms _ _ _ _ | su u _ Hsome _ _ Hu Hms
       | su m _ Hsome _ _ _ Hms Hu | su _ Hsome Hms Hu];
    try done; congruence.
Qed.

Lemma logout_then_anonymous_witness :
  request_of (Call_message_delete_post (fst (logout hello_delete sample_db)))
  = fst (logout hello_delete sample_db) /\
  controller_of (Call_message_delete_post (fst (logout hello_delete sample_db)))
  <> Router.signup_post /\
  messages (snd (run sample_hash (Some "s3cret")
                   (Call_message_delete_post
                      (fst (logout hello_delete sample_db))) sample_db))
  = [hello].
Proof.
  assert (Hc : controller_of (Call_message_delete_post
                                (fst (logout hello_delete sample_db)))
               <> Router.signup_post) by discriminate.
  split; [reflexivity |]. split; [exact Hc |].
  destruct (logout_then_anonymous sample_hash (Some "s3cret") hello_delete
              sample_db sample_db
              (Call_message_delete_post (fst (logout hello_delete sample_db)))
              eq_refl Hc) as (_ & _ & Hm).
  exact Hm.
Defined.

(** *** Message creation, when it succeeds *)

Lemma message_create_post_creates_witness :
  user hello_post = Some bob /\
  snd (message_create_chains (body hello_post)) = [] /\
  Store.calm 1 sample_db /\
  exists db',
    message_create_post hello_post sample_db = ([Redirect "/"], db') /\
    messages db' =
      [hello; Message.mk 8%N 1%N "Hi" "&lt;b&gt;hello&lt;&#x2F;b&gt;"].
Proof.
  split; [reflexivity |]. split; [reflexivity |].
  split; [apply calm_nil; reflexivity |].
  destruct (message_create_post_creates hello_post sample_db bob eq_refl
              eq_refl (calm_nil 1 sample_db eq_refl))
    as (db' & Hpost & Hmessages & _).
  exists db'. split; [exact Hpost | exact Hmessages].
Defined.
